(** * AI Medical Report Analyzer: the analysis-and-structuring pipeline

    A shallow embedding of the pure core of [app.py]: the retry loop of
    [analyze_medical_report], the section splitter [extract_section], the
    medication parser [parse_medications], and the two display
    normalisations ([plot_medicine_effectiveness],
    [render_medication_cards], [create_diagnosis_chart]).

    Modelling conventions.
    - A Python [str] is a [string]: a sequence of code points below 256.
      On that range [str.isspace] / regex [\s] hold of 9..13, 28..32, 133
      and 160, regex [\d] / [int] digits are "0".."9", and [str.lower]
      adds 32 to "A".."Z" and to 192..222 except 215.
    - Python [int] is [Z].
    - A Python exception is a value of [exn]; code that can raise returns
      a [result].
    - A [dict] with string keys is a [gmap string value]. *)

From Stdlib Require Import Ascii String ZArith Lia Bool.
From stdpp Require Import base option list strings gmap.

(** ** Exceptions and fallible computations *)

Inductive exn : Type :=
  | ValueError (msg : string)
  | IndexError (msg : string)
  | GoogleAPIError (msg : string)
  | OtherError (msg : string).

Inductive result (A : Type) : Type :=
  | Ok (a : A)
  | Raise (e : exn).
Arguments Ok {A} a.
Arguments Raise {A} e.

#[global] Instance result_ret : MRet result := fun A a => Ok a.
#[global] Instance result_bind : MBind result := fun A B k m =>
  match m with
  | Ok a => k a
  | Raise e => Raise e
  end.

(** ** Characters *)

Definition nl : string := String "010"%char "".

Definition isspace (c : ascii) : bool :=
  let n := nat_of_ascii c in
  ((9 <=? n) && (n <=? 13)) || ((28 <=? n) && (n <=? 32))
  || (n =? 133) || (n =? 160).

Definition isdigit (c : ascii) : bool :=
  let n := nat_of_ascii c in (48 <=? n) && (n <=? 57).

Definition lower_char (c : ascii) : ascii :=
  let n := nat_of_ascii c in
  if ((65 <=? n) && (n <=? 90))
     || ((192 <=? n) && (n <=? 222) && negb (n =? 215))
  then ascii_of_nat (n + 32) else c.

(** ** Python string primitives *)

(** [s.startswith(p)] *)
Fixpoint startswith (p s : string) : bool :=
  match p, s with
  | EmptyString, _ => true
  | String _ _, EmptyString => false
  | String a p', String b s' => Ascii.eqb a b && startswith p' s'
  end.

(** [s.find(sub)], with [None] for Python's [-1]. *)
Fixpoint find (sub s : string) : option nat :=
  if startswith sub s then Some 0
  else match s with
       | EmptyString => None
       | String _ s' => S <$> find sub s'
       end.

(** [sub in s] *)
Definition contains (sub s : string) : bool :=
  match find sub s with Some _ => true | None => false end.

(** [s.index(sub)] raises [ValueError] where [find] gives [-1]. *)
Definition py_index (s sub : string) : result nat :=
  match find sub s with
  | Some i => Ok i
  | None => Raise (ValueError "substring not found")
  end.

(** [s[n:]] and [s[:n]] for a non-negative [n]. *)
Fixpoint str_drop (n : nat) (s : string) : string :=
  match n, s with
  | O, _ => s
  | S _, EmptyString => EmptyString
  | S n', String _ s' => str_drop n' s'
  end.

Fixpoint str_take (n : nat) (s : string) : string :=
  match n, s with
  | O, _ => EmptyString
  | S _, EmptyString => EmptyString
  | S n', String c s' => String c (str_take n' s')
  end.

(** [s.find(sub, start)] for a non-negative [start]. *)
Definition py_find (s sub : string) (start : nat) : option nat :=
  if String.length s <? start then None
  else (fun i => start + i) <$> find sub (str_drop start s).

(** [s.lstrip(chars)], [s.rstrip(chars)], [s.strip(chars)], the set of
    stripped characters given as a predicate. *)
Fixpoint lstrip_by (f : ascii → bool) (s : string) : string :=
  match s with
  | EmptyString => EmptyString
  | String c s' => if f c then lstrip_by f s' else s
  end.

Fixpoint rstrip_by (f : ascii → bool) (s : string) : string :=
  match s with
  | EmptyString => EmptyString
  | String c s' =>
      match rstrip_by f s' with
      | EmptyString => if f c then EmptyString else String c EmptyString
      | r => String c r
      end
  end.

Definition strip_by (f : ascii → bool) (s : string) : string :=
  rstrip_by f (lstrip_by f s).

(** [s.strip()] *)
Definition strip (s : string) : string := strip_by isspace s.

(** ** Result processing: [extract_section] *)

Definition extract_section (content section_title : string) : result string :=
  if negb (contains section_title content) then
    Ok ("## " +:+ section_title +:+ nl +:+ "No information found in this section.")
  else
    section_start ← py_index content section_title;
    let remaining_content := str_drop section_start content in
    (* Find the next section header or end of content *)
    match py_find remaining_content "## " (String.length section_title) with
    | Some next_section_pos =>
        Ok (strip (str_take next_section_pos remaining_content))
    | None => Ok (strip remaining_content)
    end.

(** ** More string primitives used by the medication parser *)

Definition is_empty (s : string) : bool :=
  match s with EmptyString => true | String _ _ => false end.

Fixpoint str_forallb (f : ascii → bool) (s : string) : bool :=
  match s with
  | EmptyString => true
  | String c s' => f c && str_forallb f s'
  end.

Fixpoint str_map (f : ascii → ascii) (s : string) : string :=
  match s with
  | EmptyString => EmptyString
  | String c s' => String (f c) (str_map f s')
  end.

(** [s.lower()] *)
Definition lower (s : string) : string := str_map lower_char s.

(** [s.replace(old, new)] for a one-character [old]. *)
Fixpoint replace_char (old : ascii) (new : string) (s : string) : string :=
  match s with
  | EmptyString => EmptyString
  | String c s' =>
      if Ascii.eqb c old then new +:+ replace_char old new s'
      else String c (replace_char old new s')
  end.

(** [s.endswith(p)] *)
Definition endswith (p s : string) : bool :=
  (String.length p <=? String.length s)
  && String.eqb (str_drop (String.length s - String.length p) s) p.

(** The longest prefix of [s] whose characters all satisfy [f]. *)
Fixpoint span (f : ascii → bool) (s : string) : string :=
  match s with
  | EmptyString => EmptyString
  | String c s' => if f c then String c (span f s') else EmptyString
  end.

(** Splitting at the non-overlapping, leftmost matches of a pattern.  The
    pattern is given by [m]: [m s] is the length of its match at the start
    of [s], if it matches there.  [skip] counts the characters of the
    current match still to be consumed.  The result is the first piece and
    the list of the following ones.  A match of length 0 never occurs with
    the patterns used here and is treated as no match. *)
Fixpoint split_go (m : string → option nat) (skip : nat) (s : string)
  : string * list string :=
  match s with
  | EmptyString => (EmptyString, [])
  | String c s' =>
      match skip with
      | S k => split_go m k s'
      | O =>
          match m s with
          | Some (S k) =>
              let '(p, r) := split_go m k s' in (EmptyString, p :: r)
          | _ =>
              let '(p, r) := split_go m 0 s' in (String c p, r)
          end
      end
  end.

Definition split_with (m : string → option nat) (s : string) : list string :=
  let '(p, r) := split_go m 0 s in p :: r.

Definition literal_match (sep s : string) : option nat :=
  if startswith sep s then Some (String.length sep) else None.

(** [s.split(sep)]; every call site passes a non-empty literal [sep]. *)
Definition py_split (s sep : string) : list string :=
  split_with (literal_match sep) s.

(** [s.split(sep, 1)] *)
Definition py_split_max1 (s sep : string) : list string :=
  match find sep s with
  | Some i => [str_take i s; str_drop (i + String.length sep) s]
  | None => [s]
  end.

(** [l[i]] for a non-negative [i]. *)
Definition py_nth {A : Type} (l : list A) (i : nat) : result A :=
  match l !! i with
  | Some a => Ok a
  | None => Raise (IndexError "list index out of range")
  end.

(** [a, b = l] *)
Definition unpack2 {A : Type} (l : list A) : result (A * A) :=
  match l with
  | [a; b] => Ok (a, b)
  | _ => Raise (ValueError "wrong number of values to unpack")
  end.

(** *** [int(s)] in base 10 *)

Definition digit_val (c : ascii) : Z := Z.of_nat (nat_of_ascii c - 48).

Fixpoint int_digits_acc (acc : Z) (s : string) : Z :=
  match s with
  | EmptyString => acc
  | String c s' => int_digits_acc (10 * acc + digit_val c) s'
  end.

Definition int_digits (s : string) : Z := int_digits_acc 0 s.

(** Digits, with single underscores allowed between two digits. *)
Fixpoint valid_int_body (after_digit : bool) (s : string) : bool :=
  match s with
  | EmptyString => after_digit
  | String c s' =>
      if isdigit c then valid_int_body true s'
      else if Ascii.eqb c "_" then after_digit && valid_int_body false s'
      else false
  end.

(** White space skipped by [int]: code points 28..31 are not. *)
Definition int_space (c : ascii) : bool :=
  let n := nat_of_ascii c in
  ((9 <=? n) && (n <=? 13)) || (n =? 32) || (n =? 133) || (n =? 160).

Definition py_int (s : string) : result Z :=
  let t := strip_by int_space s in
  let '(sign, body) :=
    match t with
    | String c r =>
        if Ascii.eqb c "-" then ((-1)%Z, r)
        else if Ascii.eqb c "+" then (1%Z, r)
        else (1%Z, t)
    | EmptyString => (1%Z, t)
    end in
  if valid_int_body false body
  then Ok (sign * int_digits (replace_char "_" "" body))%Z
  else Raise (ValueError "invalid literal for int() with base 10").

(** *** The regular expressions *)

Definition is_bullet (c : ascii) : bool := Ascii.eqb c "-" || Ascii.eqb c "*".

(** Length of the match of [\n\s*[-*]\s+] at the start of [s].  [\s] and
    [[-*]] are disjoint, so giving back part of the greedy [\s*] never
    helps: after the line feed the whole run of white space is taken, the
    next character must be a bullet, and the greedy [\s+] takes the whole
    non-empty run that follows. *)
Definition bullet_match (s : string) : option nat :=
  match s with
  | String c r =>
      if Ascii.eqb c "010" then
        let w := String.length (span isspace r) in
        match str_drop w r with
        | String b r' =>
            let v := String.length (span isspace r') in
            if is_bullet b && negb (v =? 0) then Some (1 + w + 1 + v) else None
        | EmptyString => None
        end
      else None
  | EmptyString => None
  end.

(** [re.split(r"\n\s*[-*]\s+", s)] *)
Definition re_split_bullets (s : string) : list string :=
  split_with bullet_match s.

(** [k] digits followed by [%] at the start of [s]: the digits. *)
Definition digits_then_pct (k : nat) (s : string) : option string :=
  let d := str_take k s in
  if (String.length d =? k) && str_forallb isdigit d
     && startswith "%" (str_drop k s)
  then Some d else None.

(** Group 1 of the match of [(\d{1,3})%] at the start of [s]: the greedy
    [\d{1,3}] tries three digits, then two, then one. *)
Definition pct_match_at (s : string) : option string :=
  match digits_then_pct 3 s with
  | Some d => Some d
  | None =>
      match digits_then_pct 2 s with
      | Some d => Some d
      | None => digits_then_pct 1 s
      end
  end.

(** [re.search(r"(\d{1,3})%", s)], giving [group(1)] of the leftmost match. *)
Fixpoint re_search_pct (s : string) : option string :=
  match pct_match_at s with
  | Some d => Some d
  | None =>
      match s with
      | EmptyString => None
      | String _ s' => re_search_pct s'
      end
  end.

(** [re.search(r"\d+", s)], giving [group()] of the leftmost match. *)
Fixpoint re_search_digits (s : string) : option string :=
  match s with
  | EmptyString => None
  | String c s' =>
      if isdigit c then Some (span isdigit s) else re_search_digits s'
  end.



(** ** The medication parser: [parse_medications] *)

Inductive value : Type :=
  | VStr (s : string)
  | VInt (n : Z).

#[global] Instance value_eq_dec : EqDecision value.
Proof. solve_decision. Defined.

(** [[line.strip() for line in entry.split("\n") if line.strip()]] *)
Definition entry_lines (entry : string) : list string :=
  omap (fun line => if is_empty (strip line) then None else Some (strip line))
       (py_split entry nl).

(** Lines 267-282: the effectiveness of the first line. *)
Definition first_line_effectiveness (first_line : string)
    (med_data : gmap string value) : result (gmap string value) :=
  match re_search_pct first_line with
  | Some g =>
      n ← py_int g;
      Ok (<["effectiveness" := VInt n]> med_data)
  | None =>
      if contains "Effectiveness:" first_line then
        (* Handle cases where effectiveness is mentioned but not as percentage *)
        part ← py_nth (py_split first_line "Effectiveness:") 1;
        let eff_text := strip part in
        if contains "%" eff_text then
          match re_search_pct eff_text with
          | Some g =>
              n ← py_int g;
              Ok (<["effectiveness" := VInt n]> med_data)
          | None => Ok med_data
          end
        else
          (* Try to extract any number *)
          match re_search_digits eff_text with
          | Some g =>
              n ← py_int g;
              Ok (<["effectiveness" := VInt n]> med_data)
          | None => Ok med_data
          end
      else Ok med_data
  end.

Definition is_paren (c : ascii) : bool := Ascii.eqb c "(" || Ascii.eqb c ")".

(** Lines 286-292: one of the remaining lines of an entry. *)
Definition process_detail_line (med_data : gmap string value) (line : string)
  : result (gmap string value) :=
  if contains ":" line then
    '(key, val) ← unpack2 (py_split_max1 line ":");
    let key := replace_char " " "_" (lower (strip key)) in
    Ok (<[key := VStr (strip val)]> med_data)
  else if startswith "(" line && endswith ")" line then
    (* Handle additional info in parentheses *)
    Ok (<["additional_info" := VStr (strip_by is_paren line)]> med_data)
  else Ok med_data.

Fixpoint process_detail_lines (med_data : gmap string value)
    (lines : list string) : result (gmap string value) :=
  match lines with
  | [] => Ok med_data
  | line :: rest =>
      med_data ← process_detail_line med_data line;
      process_detail_lines med_data rest
  end.

(** The body of the loop over [med_entries]; [None] stands for [continue]. *)
Definition parse_entry (entry : string) : result (option (gmap string value)) :=
  let med_data : gmap string value := ∅ in
  let lines := entry_lines entry in
  if bool_decide (lines = []) then Ok None
  else
    (* First line is medication name and effectiveness *)
    first_line ← py_nth lines 0;
    before_paren ← py_nth (py_split first_line "(") 0;
    before_colon ← py_nth (py_split before_paren ":") 0;
    let med_data := <["name" := VStr (strip before_colon)]> med_data in
    (* Extract effectiveness if available *)
    med_data ← first_line_effectiveness first_line med_data;
    (* Process remaining lines for details *)
    med_data ← process_detail_lines med_data (drop 1 lines);
    Ok (Some med_data).

Fixpoint parse_entries (medications : list (gmap string value))
    (med_entries : list string) : result (list (gmap string value)) :=
  match med_entries with
  | [] => Ok medications
  | entry :: rest =>
      r ← parse_entry entry;
      match r with
      | Some med_data => parse_entries (medications ++ [med_data]) rest
      | None => parse_entries medications rest
      end
  end.

Definition MED_HEADER : string := "## 3. Medication Recommendations".

Definition parse_medications (content : string)
  : result (list (gmap string value)) :=
  med_section ← extract_section content MED_HEADER;
  (* Split into individual medication entries *)
  let med_entries := drop 1 (re_split_bullets med_section) in
  parse_entries [] med_entries.

(** ** Visualisations *)








Definition CLASS_HEADER : string := "## 5. Disease Classification".

(** Lines 362-367: the three keyword checks, in sequence. *)
Definition weigh_classification (classification : string) (sizes : list Z)
  : list Z :=
  let sizes := if contains "chronic" classification
               then [40; 20; 20; 20]%Z else sizes in
  let sizes := if contains "infectious" classification
               then [20; 40; 20; 20]%Z else sizes in
  let sizes := if contains "common" classification
               then [20; 20; 40; 20]%Z else sizes in
  sizes.

(** The [sizes] that [create_diagnosis_chart] plots. *)
Definition create_diagnosis_chart (content : string) : result (list Z) :=
  let sizes := [25; 25; 25; 25]%Z in  (* Default distribution *)
  if contains CLASS_HEADER content then
    section ← extract_section content CLASS_HEADER;
    let classification := lower section in
    Ok (weigh_classification classification sizes)
  else Ok sizes.

(** ** AI analysis: [analyze_medical_report] *)

Definition MAX_RETRIES : nat := 3.
Definition RETRY_DELAY : Z := 2.

Definition ANALYSIS_TEMPLATE : string := "
## 1. Key Findings
[Concise bullet points of important findings]

## 2. Potential Diagnoses
[List of possible diagnoses with confidence levels]

## 3. Medication Recommendations
[Suggested medicines with effectiveness percentages, dosages, and side effects]

## 4. Lifestyle Guidance
[Diet plans (vegetarian/non-vegetarian), exercise routines, sleep advice]

## 5. Disease Classification
[Classification into chronic, infectious, common illnesses etc.]

## 6. Next Steps
[Recommended follow-up actions and timeline]
".

Definition prompt : string :=
"
    Analyze this medical report and provide structured output with these exact section headers:

    " +:+ ANALYSIS_TEMPLATE +:+ "

    Additional requirements:
    - Use concise, professional language
    - Include relevant emojis for readability
    - For medications, provide exact dosages when possible
    - For diagnoses, include confidence percentages
    - Format with clear markdown headers
    ".

Definition FAILED_MESSAGE : string :=
  "AI analysis failed. Please try again later.".

(** What [model.generate_content] hands back: an object with a truth
    value and, when it has the attribute, a [text]. *)
Record response : Type := {
  truthy : bool;
  text : option string
}.

Inductive call_outcome : Type :=
  | Returns (r : response)
  | Throws (e : exn).

(** The external service: the outcome of its [n]-th call (counting from
    0) on a given argument. *)
Definition service : Type := nat → string → call_outcome.

(** What the function does to the outside: the arguments of the calls to
    the service, the [time.sleep] delays and the [st.error] messages, each
    in order. *)
Record world : Type := {
  calls : list string;
  sleeps : list Z;
  errors : list string
}.

Definition empty_world : world := {| calls := []; sleeps := []; errors := [] |}.

Definition str_exn (e : exn) : string :=
  match e with
  | ValueError m | IndexError m | GoogleAPIError m | OtherError m => m
  end.

(** [except (exceptions.GoogleAPIError, ValueError)] *)
Definition caught (e : exn) : bool :=
  match e with
  | GoogleAPIError _ | ValueError _ => true
  | _ => false
  end.

Inductive step : Type :=
  | Return (v : string)
  | Continue
  | Propagate (e : exn).

(** One iteration of the [for] loop, lines 211-221. *)
Definition attempt_body (model : service) (content : string) (attempt : nat)
    (w : world) : step * world :=
  let arg := prompt +:+ nl +:+ nl +:+ content in
  let outcome := model (length (calls w)) arg in
  let w := {| calls := calls w ++ [arg]; sleeps := sleeps w; errors := errors w |} in
  let tried : result string :=
    match outcome with
    | Returns r =>
        match truthy r, text r with
        | true, Some t => Ok t
        | _, _ => Raise (ValueError "Invalid response from AI")
        end
    | Throws e => Raise e
    end in
  match tried with
  | Ok t => (Return t, w)
  | Raise e =>
      if caught e then
        if attempt <? MAX_RETRIES - 1 then
          (Continue,
           {| calls := calls w; sleeps := sleeps w ++ [RETRY_DELAY];
              errors := errors w |})
        else
          (Return FAILED_MESSAGE,
           {| calls := calls w; sleeps := sleeps w;
              errors := errors w
                ++ ["Failed to analyze the report. Error: " +:+ str_exn e] |})
      else (Propagate e, w)
  end.

(** The loop over [range(MAX_RETRIES)]; falling off its end returns
    Python's [None]. *)
Fixpoint retry_loop (model : service) (content : string) (attempts : list nat)
    (w : world) : result (option string) * world :=
  match attempts with
  | [] => (Ok None, w)
  | attempt :: rest =>
      match attempt_body model content attempt w with
      | (Return v, w') => (Ok (Some v), w')
      | (Continue, w') => retry_loop model content rest w'
      | (Propagate e, w') => (Raise e, w')
      end
  end.

Definition analyze_medical_report (model : service) (content : string)
    (w : world) : result (option string) * world :=
  retry_loop model content (seq 0 MAX_RETRIES) w.

(** ** The rest of the charts and the tabs *)

(** [max(l)] on a list of integers. *)
Definition py_max (l : list Z) : result Z :=
  match l with
  | [] => Raise (ValueError "max() arg is an empty sequence")
  | x :: rest => Ok (foldl Z.max x rest)
  end.

(** [l.index(x)] on a list of integers. *)
Fixpoint list_index (l : list Z) (x : Z) : result nat :=
  match l with
  | [] => Raise (ValueError "x is not in list")
  | y :: rest =>
      if bool_decide (y = x) then Ok 0
      else
        i ← list_index rest x;
        Ok (S i)
  end.

(** Lines 377-378 of [create_diagnosis_chart]: the slice that is pulled
    out.  [explode] holds 0.1 at [max_index] and 0 elsewhere; [true]
    stands for the 0.1. *)
Definition chart_explode (sizes : list Z) : result (list bool) :=
  largest ← py_max sizes;
  max_index ← list_index sizes largest;
  Ok (map (fun i => bool_decide (i = max_index)) (seq 0 (length sizes))).

(** [s.replace(old, new)] for a non-empty [old]: the occurrences of
    [old] are replaced from the left, without overlap; [skip] counts the
    characters of the current occurrence still to be passed. *)
Fixpoint replace_go (old new : string) (skip : nat) (s : string) : string :=
  match s with
  | EmptyString => EmptyString
  | String c s' =>
      match skip with
      | S k => replace_go old new k s'
      | O =>
          if startswith old s
          then new +:+ replace_go old new (String.length old - 1) s'
          else String c (replace_go old new 0 s')
      end
  end.

Definition py_replace (s old new : string) : string := replace_go old new 0 s.

(** What a tab shows of one section, lines 480-481, 491-492, 539-540 and
    570-571 of [render_analysis_tabs]. *)
Definition tab_text (analysis_result section_title : string) : result string :=
  section ← extract_section analysis_result section_title;
  Ok (strip (py_replace section section_title "")).



(** ** Text extraction and the session of [main] *)

(** [sep.join(l)] *)
Fixpoint py_join (sep : string) (l : list string) : string :=
  match l with
  | [] => EmptyString
  | [x] => x
  | x :: rest => x +:+ sep +:+ py_join sep rest
  end.

(** [page.extract_text() or ""], for a page whose text is [None] or a
    string. *)
Definition page_text (extracted : option string) : string :=
  match extracted with
  | Some t => if is_empty t then EmptyString else t
  | None => EmptyString
  end.

(** [extract_text_from_pdf], on the texts of the pages of the file. *)
Definition extract_text_from_pdf (pages : list (option string)) : string :=
  py_join nl (map page_text pages).

(** [st.session_state]; [analysis_result] holds what
    [analyze_medical_report] returned, a string or [None]. *)
Record session : Type := {
  analysis_result : option string;
  analysis_done : bool;
  file_uploaded : bool
}.

(** Lines 589-594: the state of a fresh session. *)
Definition initial_session : session :=
  {| analysis_result := Some EmptyString; analysis_done := false;
     file_uploaded := false |}.

Definition report_error (w : world) (message : string) : world :=
  {| calls := calls w; sleeps := sleeps w; errors := errors w ++ [message] |}.

(** Lines 629-646 of [main]: a click on the analyze button, given what
    the text extraction returned or raised. *)
Definition analyze_click (model : service) (extracted : result string)
    (st : session) (w : world) : session * world :=
  let failed (e : exn) (w : world) :=
    ({| analysis_result := analysis_result st; analysis_done := false;
        file_uploaded := file_uploaded st |},
     report_error w ("Analysis failed: " +:+ str_exn e)) in
  match extracted with
  | Raise e => failed e w
  | Ok extracted_text =>
      if is_empty (strip extracted_text) then
        (st, report_error w "No readable text found in the document.")
      else
        (* Analyze with AI *)
        match analyze_medical_report model extracted_text w with
        | (Ok returned, w') =>
            ({| analysis_result := returned; analysis_done := true;
                file_uploaded := file_uploaded st |}, w')
        | (Raise e, w') => failed e w'
        end
  end.

(** Line 623: is the analyze button on the page? *)
Definition shows_analyze_button (uploaded : bool) (st : session) : bool :=
  uploaded && negb (analysis_done st).

(** Line 649: are the results, and with them the button that starts
    over, on the page? *)
Definition shows_results (st : session) : bool :=
  analysis_done st
  && match analysis_result st with
     | Some t => negb (is_empty t)
     | None => false
     end.

(** Lines 687-690: a click on the button that starts over. *)
Definition reset_click (st : session) : session :=
  {| analysis_result := Some EmptyString; analysis_done := false;
     file_uploaded := false |}.

(** * Vocabulary of the statements *)

(** What [extract_section] returns when the title is absent. *)
Definition placeholder (section_title : string) : string :=
  "## " +:+ section_title +:+ nl +:+ "No information found in this section.".

(** The specification's reading of the section boundary, following its
    words: the text from the first occurrence of the title up to the next
    ["## "] that begins a line after the title, or up to the end of the
    text. *)
Definition section_to_header_line (content section_title : string) : string :=
  match find section_title content with
  | Some i =>
      let remaining := str_drop i content in
      match find (nl +:+ "## ")
                 (str_drop (String.length section_title) remaining) with
      | Some j => str_take (String.length section_title + j + 1) remaining
      | None => remaining
      end
  | None => placeholder section_title
  end.

(** A text whose first section has ["## "] in the middle of a body line. *)
Definition marker_in_body : string :=
  "## A" +:+ nl +:+ "see ## note" +:+ nl +:+ "## B" +:+ nl +:+ "end".

(** The characters that end the name on the first line of an entry. *)
Definition name_stop (c : ascii) : bool := Ascii.eqb c "(" || Ascii.eqb c ":".

(** The attribute a detail line of an entry sets, and its value. *)
Definition detail_attr (line : string) : option (string * string) :=
  if contains ":" line then
    match find ":" line with
    | Some i =>
        Some (replace_char " " "_" (lower (strip (str_take i line))),
              strip (str_drop (i + 1) line))
    | None => None
    end
  else if startswith "(" line && endswith ")" line
  then Some ("additional_info", strip_by is_paren line)
  else None.

(** The record of an entry, when it has one. *)
Definition entry_record (entry : string) : option (gmap string value) :=
  match parse_entry entry with
  | Ok (Some med_data) => Some med_data
  | _ => None
  end.

(** Sample first lines, entries and reports. *)
Definition paracetamol_line : string :=
  "Paracetamol (500mg) - Effectiveness: 85%".

Definition ibuprofen_entry : string :=
  "Ibuprofen: fast relief" +:+ nl +:+ "  Dosage: 200mg twice daily".

Definition over_hundred : string :=
  MED_HEADER +:+ nl +:+ "- DrugX 150%" +:+ nl
  +:+ "- DrugY" +:+ nl +:+ "  Effectiveness: high".


(** The default distribution of [create_diagnosis_chart]. *)
Definition uniform : list Z := [25; 25; 25; 25]%Z.

Definition chronic_then_common : string :=
  CLASS_HEADER +:+ nl +:+ "Chronic condition, Common in adults" +:+ nl
  +:+ "## 6. Next Steps".



(** The argument every attempt hands to the service. *)
Definition request (content : string) : string :=
  prompt +:+ nl +:+ nl +:+ content.

(** A successful call: a response with a text. *)
Definition answers (t : string) : call_outcome :=
  Returns {| truthy := true; text := Some t |}.

(** The exception an attempt ends with, if any: the one the call raised,
    or the [ValueError] for a response without text. *)
Definition attempt_exn (o : call_outcome) : option exn :=
  match o with
  | Returns r =>
      match truthy r, text r with
      | true, Some _ => None
      | _, _ => Some (ValueError "Invalid response from AI")
      end
  | Throws e => Some e
  end.

(** A failure that is retried: a service-level error, a [ValueError], or a
    response lacking textual content. *)
Definition fails (o : call_outcome) : Prop :=
  ∃ e, attempt_exn o = Some e ∧ caught e = true.

(** The message handed to [st.error] when the last attempt ends with the
    exception of [o]. *)
Definition failure_report (o : call_outcome) : string :=
  "Failed to analyze the report. Error: "
  +:+ match attempt_exn o with Some e => str_exn e | None => "" end.

(** The logs of [w] after [n] more calls with [arg], and after [n] more
    waits. *)
Definition called (w : world) (arg : string) (n : nat) : list string :=
  calls w ++ replicate n arg.

Definition slept (w : world) (n : nat) : list Z :=
  sleeps w ++ replicate n RETRY_DELAY.

(** Three services: one that always fails, one that fails twice and then
    answers, and one that answers the failure sentence at once. *)
Definition unavailable (_ : nat) (_ : string) : call_outcome :=
  Throws (GoogleAPIError "503 service unavailable").

Definition flaky (n : nat) (_ : string) : call_outcome :=
  if n <? 2 then Throws (GoogleAPIError "503 service unavailable")
  else answers "## 1. Key Findings".

Definition echo_failure (_ : nat) (_ : string) : call_outcome :=
  answers FAILED_MESSAGE.

(** The specification's result type, following its words: a success
    carrying the text, or a failure with a kind and a message. *)
Inductive AnalysisOutcome : Type :=
  | Success (t : string)
  | Failure (kind message : string).

(** An exception the [except] clause of the retry loop lets through. *)
Definition uncaught (o : call_outcome) : Prop :=
  ∃ e, o = Throws e ∧ caught e = false.

(** A service whose first call raises something else than a service
    error. *)
Definition broken (_ : nat) (_ : string) : call_outcome :=
  Throws (OtherError "connection reset").

(** [s] is empty or its last character is not a digit. *)
Fixpoint no_trailing_digit (s : string) : bool :=
  match s with
  | EmptyString => true
  | String c EmptyString => negb (isdigit c)
  | String _ s' => no_trailing_digit s'
  end.

(** The key under which a detail line [key: value] is stored. *)
Definition attr_key (key : string) : string :=
  replace_char " " "_" (lower (strip key)).

(** A medication section in prose, without any bullet. *)
Definition prose_report : string :=
  MED_HEADER +:+ nl +:+ "Rest and fluids; no medicine is needed.".

(** The two records of [over_hundred]. *)
Definition drugx_record : gmap string value :=
  <["effectiveness" := VInt 150]> (<["name" := VStr "DrugX 150%"]> ∅).

Definition drugy_record : gmap string value :=
  <["effectiveness" := VStr "high"]> (<["name" := VStr "DrugY"]> ∅).

(** An entry whose name has digits before the percentage, and one without
    any effectiveness. *)
Definition dosed_entry : string :=
  "Paracetamol (500mg) - 85% effective" +:+ nl +:+ "  Dosage: 500mg".

Definition plain_entry : string := "Bed rest" +:+ nl +:+ "(two days)".

(** The titles [render_analysis_tabs] shows as text. *)
Definition TAB_HEADERS : list string :=
  ["## 1. Key Findings"; "## 2. Potential Diagnoses";
   "## 4. Lifestyle Guidance"; "## 6. Next Steps"].



(** A service that answers the empty text. *)
Definition mute (_ : nat) (_ : string) : call_outcome :=
  answers EmptyString.

(** A text with two of the sections, after some introduction. *)
Definition two_sections : string :=
  "intro" +:+ nl +:+ "## 1. Key Findings" +:+ nl +:+ "- fever  " +:+ nl
  +:+ nl +:+ "## 2. Potential Diagnoses" +:+ nl +:+ "- flu".

(** * Facts about the string primitives *)

Section StringFacts.

Implicit Types (s t p r sub : string) (c : ascii) (f : ascii → bool).

Lemma str_app_nil_l s : "" +:+ s = s.
Proof. reflexivity. Qed.

Lemma str_app_cons c s t : String c s +:+ t = String c (s +:+ t).
Proof. reflexivity. Qed.

Lemma str_app_nil_r s : s +:+ "" = s.
Proof. induction s as [|c s IH]; [done|]. by rewrite str_app_cons, IH. Qed.

Lemma str_app_assoc s t r : (s +:+ t) +:+ r = s +:+ t +:+ r.
Proof. induction s as [|c s IH]; [done|]. by rewrite !str_app_cons, IH. Qed.

Lemma str_length_app s t :
  String.length (s +:+ t) = String.length s + String.length t.
Proof. induction s as [|c s IH]; [done|]. rewrite str_app_cons. simpl. lia. Qed.

Lemma startswith_app p r : startswith p (p +:+ r) = true.
Proof.
  induction p as [|c p IH]; [done|].
  rewrite str_app_cons. simpl. by rewrite Ascii.eqb_refl, IH.
Qed.

Lemma startswith_inv p s : startswith p s = true → ∃ r, s = p +:+ r.
Proof.
  revert s. induction p as [|a p IH]; intros s H.
  - by exists s.
  - destruct s as [|b s]; [done|]. simpl in H.
    apply andb_true_iff in H as [Hab Hps].
    apply Ascii.eqb_eq in Hab as ->.
    destruct (IH _ Hps) as [r ->]. by exists r.
Qed.

Lemma str_take_drop n s : str_take n s +:+ str_drop n s = s.
Proof.
  revert s. induction n as [|n IH]; intros [|c s]; try done.
  simpl. by rewrite str_app_cons, IH.
Qed.

Lemma str_drop_app_length p r : str_drop (String.length p) (p +:+ r) = r.
Proof. induction p as [|c p IH]; [by destruct r|]. by rewrite str_app_cons. Qed.

Lemma str_take_app_length p r : str_take (String.length p) (p +:+ r) = p.
Proof.
  induction p as [|c p IH]; [by destruct r|].
  rewrite str_app_cons. simpl. by rewrite IH.
Qed.

Lemma str_take_app_plus p r n :
  str_take (String.length p + n) (p +:+ r) = p +:+ str_take n r.
Proof.
  induction p as [|c p IH]; [done|].
  rewrite !str_app_cons. simpl. by rewrite IH.
Qed.

Lemma length_str_take n s :
  n ≤ String.length s → String.length (str_take n s) = n.
Proof.
  revert s. induction n as [|n IH]; intros [|c s] H; simpl in *; try done; [lia|].
  rewrite IH; lia.
Qed.

(** [find] gives the first position at which [sub] starts. *)
Lemma find_Some sub s i :
  find sub s = Some i →
  i ≤ String.length s
  ∧ startswith sub (str_drop i s) = true
  ∧ ∀ j, j < i → startswith sub (str_drop j s) = false.
Proof.
  revert i. induction s as [|c s IH]; intros i; simpl.
  - destruct (startswith sub "") eqn:E; [|done].
    intros [= <-]. split; [done|]. split; [done|]. lia.
  - destruct (startswith sub (String c s)) eqn:E.
    + intros [= <-]. split; [lia|]. split; [done|]. lia.
    + destruct (find sub s) as [k|] eqn:Hk; [|done].
      intros [= <-]. destruct (IH k eq_refl) as (Hle & Hat & Hmin).
      split; [lia|]. split; [done|].
      intros [|j] Hj; [done|]. simpl. apply Hmin. lia.
Qed.

Lemma find_None sub s j : find sub s = None → startswith sub (str_drop j s) = false.
Proof.
  revert j. induction s as [|c s IH]; intros j; simpl.
  - destruct (startswith sub "") eqn:E; [done|]. by destruct j.
  - destruct (startswith sub (String c s)) eqn:E; [done|].
    destruct (find sub s) eqn:Hk; [done|]. intros _.
    destruct j as [|j]; [done|]. simpl. by apply IH.
Qed.

Lemma find_split sub s i :
  find sub s = Some i →
  ∃ pre post, s = pre +:+ sub +:+ post ∧ String.length pre = i
              ∧ str_drop i s = sub +:+ post.
Proof.
  intros (Hle & Hat & _)%find_Some.
  apply startswith_inv in Hat as [post Hpost].
  exists (str_take i s), post. split; [|split; [|done]].
  - by rewrite <- Hpost, str_take_drop.
  - by apply length_str_take.
Qed.

Lemma contains_true sub s : contains sub s = true → ∃ i, find sub s = Some i.
Proof. unfold contains. destruct (find sub s) as [i|]; [by exists i|done]. Qed.

Lemma contains_false sub s : contains sub s = false → find sub s = None.
Proof. unfold contains. by destruct (find sub s). Qed.

(** *** Stripping *)

Lemma rstrip_by_empty f s : rstrip_by f s = "" → str_forallb f s = true.
Proof.
  induction s as [|c s IH]; [done|]. simpl.
  destruct (rstrip_by f s) eqn:E; [|done].
  destruct (f c); [|done]. intros _. by rewrite IH.
Qed.

Lemma lstrip_by_forallb f s t :
  str_forallb f (lstrip_by f s) = true → str_forallb f s = true.
Proof.
  induction s as [|c s IH]; [done|]. simpl.
  destruct (f c) eqn:E; [done|]. simpl. by rewrite E.
Qed.

Lemma strip_by_empty f s : strip_by f s = "" → str_forallb f s = true.
Proof.
  intros H%rstrip_by_empty. by apply (lstrip_by_forallb f s "").
Qed.

(** What stripping removes is made of stripped characters only. *)
Lemma lstrip_by_split f s :
  ∃ l, s = l +:+ lstrip_by f s ∧ str_forallb f l = true.
Proof.
  induction s as [|c s (l & Hs & Hl)]; [by exists ""|].
  simpl. destruct (f c) eqn:E.
  - exists (String c l). rewrite str_app_cons, <- Hs. simpl. by rewrite E.
  - by exists "".
Qed.

Lemma rstrip_by_split f s :
  ∃ r, s = rstrip_by f s +:+ r ∧ str_forallb f r = true.
Proof.
  induction s as [|c s (r & Hs & Hr)]; [by exists ""|].
  simpl. destruct (rstrip_by f s) as [|c' s'] eqn:E.
  - rewrite str_app_nil_l in Hs. subst r. destruct (f c) eqn:Hc.
    + exists (String c s). simpl. by rewrite Hc.
    + by exists s.
  - exists r. by rewrite str_app_cons, <- Hs.
Qed.

Lemma strip_by_split f s :
  ∃ l r, s = l +:+ strip_by f s +:+ r
         ∧ str_forallb f l = true ∧ str_forallb f r = true.
Proof.
  destruct (lstrip_by_split f s) as (l & Hs & Hl).
  destruct (rstrip_by_split f (lstrip_by f s)) as (r & Hs' & Hr).
  exists l, r. unfold strip_by. by rewrite <- Hs', <- Hs.
Qed.

Lemma str_forallb_app f s t :
  str_forallb f (s +:+ t) = str_forallb f s && str_forallb f t.
Proof.
  induction s as [|c s IH]; [done|].
  rewrite str_app_cons. simpl. by rewrite IH, andb_assoc.
Qed.

(** *** Spans and splitting *)

Lemma span_spec f s :
  ∃ r, s = span f s +:+ r
       ∧ str_forallb f (span f s) = true
       ∧ match r with EmptyString => True | String c _ => f c = false end.
Proof.
  induction s as [|c s (r & Hs & Hall & Hr)]; [by exists ""|].
  simpl. destruct (f c) eqn:E.
  - exists r. rewrite str_app_cons, <- Hs. simpl. by rewrite E, Hall.
  - by exists (String c s).
Qed.

Lemma span_span f g s : span g (span f s) = span (fun c => f c && g c) s.
Proof.
  induction s as [|c s IH]; [done|]. simpl.
  destruct (f c); simpl; [|done]. destruct (g c); [|done]. by rewrite IH.
Qed.

Lemma split_first_char a s :
  (split_go (literal_match (String a "")) 0 s).1
  = span (fun c => negb (Ascii.eqb c a)) s.
Proof.
  induction s as [|c s IH]; [done|].
  simpl. unfold literal_match at 1. simpl.
  rewrite andb_true_r, (Ascii.eqb_sym a c).
  destruct (Ascii.eqb c a); simpl.
  - by destruct (split_go _ 0 s).
  - rewrite <- IH. by destruct (split_go _ 0 s).
Qed.

Lemma py_split_head s sep :
  py_nth (py_split s sep) 0 = Ok (split_go (literal_match sep) 0 s).1.
Proof.
  unfold py_split, split_with. by destruct (split_go _ 0 s).
Qed.

Lemma split_go_second sep s i :
  sep ≠ "" → find sep s = Some i →
  (split_go (literal_match sep) 0 s).2 ≠ [].
Proof.
  intros Hsep. revert i. induction s as [|c s IH]; intros i; simpl.
  - destruct sep; done.
  - unfold literal_match at 1.
    destruct (startswith sep (String c s)) eqn:E.
    + destruct sep as [|a sep]; [done|]. simpl. intros _.
      clear IH. by destruct (split_go _ _ s).
    + destruct (find sep s) as [k|] eqn:Hk; [|done]. intros _.
      specialize (IH k eq_refl). by destruct (split_go _ 0 s).
Qed.

Lemma py_split_second s sep :
  sep ≠ "" → contains sep s = true →
  ∃ part, py_nth (py_split s sep) 1 = Ok part.
Proof.
  intros Hsep [i Hi]%contains_true.
  pose proof (split_go_second sep s i Hsep Hi) as H.
  unfold py_split, split_with.
  destruct (split_go _ 0 s) as [p [|q r]]; [done|]. by exists q.
Qed.

Lemma py_split_max1_pair s sep :
  contains sep s = true → ∃ a b, py_split_max1 s sep = [a; b].
Proof.
  intros [i Hi]%contains_true. unfold py_split_max1. rewrite Hi. eauto.
Qed.

(** *** Digits and [int] *)

Lemma isdigit_facts c :
  isdigit c = true →
  int_space c = false ∧ Ascii.eqb c "-" = false ∧ Ascii.eqb c "+" = false
  ∧ Ascii.eqb c "_" = false ∧ (0 ≤ digit_val c ≤ 9)%Z.
Proof.
  destruct c as [[] [] [] [] [] [] [] []]; vm_compute; intros H;
    try discriminate H; repeat split; congruence.
Qed.

Lemma strip_by_id f s :
  str_forallb (fun c => negb (f c)) s = true → strip_by f s = s.
Proof.
  intros H. unfold strip_by.
  assert (lstrip_by f s = s) as ->.
  { destruct s as [|c s]; [done|]. simpl in *.
    apply andb_true_iff in H as [Hc _]. by destruct (f c). }
  induction s as [|c s IH]; [done|]. simpl in *.
  apply andb_true_iff in H as [Hc Hs]. rewrite (IH Hs).
  destruct s; [|done]. by destruct (f c).
Qed.

Lemma digits_not_int_space d :
  str_forallb isdigit d = true →
  str_forallb (fun c => negb (int_space c)) d = true.
Proof.
  induction d as [|c d IH]; [done|]. simpl.
  intros [Hc Hd]%andb_true_iff.
  destruct (isdigit_facts c Hc) as (-> & _). simpl. auto.
Qed.

Lemma valid_int_body_digits b d :
  str_forallb isdigit d = true →
  valid_int_body b d = b || negb (is_empty d).
Proof.
  revert b. induction d as [|c d IH]; intros b; simpl.
  - by rewrite orb_false_r.
  - intros [Hc Hd]%andb_true_iff. rewrite Hc, (IH _ Hd). simpl.
    by rewrite orb_true_r.
Qed.

Lemma replace_underscore_digits d :
  str_forallb isdigit d = true → replace_char "_" "" d = d.
Proof.
  induction d as [|c d IH]; [done|]. simpl.
  intros [Hc Hd]%andb_true_iff.
  destruct (isdigit_facts c Hc) as (_ & _ & _ & -> & _). by rewrite IH.
Qed.

Lemma py_int_digits d :
  d ≠ "" → str_forallb isdigit d = true → py_int d = Ok (int_digits d).
Proof.
  intros Hne Hd. unfold py_int.
  rewrite (strip_by_id _ _ (digits_not_int_space _ Hd)).
  destruct d as [|c d]; [done|].
  pose proof Hd as Hd'. simpl in Hd'. apply andb_true_iff in Hd' as [Hc _].
  destruct (isdigit_facts c Hc) as (_ & -> & -> & _).
  rewrite (valid_int_body_digits _ _ Hd), (replace_underscore_digits _ Hd).
  simpl. f_equal. by destruct (int_digits (String c d)).
Qed.

Lemma int_digits_acc_bounds acc d :
  str_forallb isdigit d = true → (0 ≤ acc)%Z →
  (0 ≤ int_digits_acc acc d
   ≤ acc * 10 ^ Z.of_nat (String.length d)
     + 10 ^ Z.of_nat (String.length d) - 1)%Z.
Proof.
  revert acc. induction d as [|c d IH]; intros acc Hd Hacc.
  - simpl. lia.
  - simpl in Hd. apply andb_true_iff in Hd as [Hc Hd].
    destruct (isdigit_facts c Hc) as (_ & _ & _ & _ & Hv).
    cbn [int_digits_acc String.length].
    specialize (IH (10 * acc + digit_val c)%Z Hd ltac:(lia)).
    rewrite Nat2Z.inj_succ, Z.pow_succ_r by lia.
    assert (0 < 10 ^ Z.of_nat (String.length d))%Z by (apply Z.pow_pos_nonneg; lia).
    nia.
Qed.

Lemma int_digits_nonneg d :
  str_forallb isdigit d = true → (0 ≤ int_digits d)%Z.
Proof. intros Hd. by apply (int_digits_acc_bounds 0 d Hd). Qed.

Lemma int_digits_three d :
  str_forallb isdigit d = true → String.length d ≤ 3 →
  (int_digits d ≤ 999)%Z.
Proof.
  intros Hd Hlen. pose proof (int_digits_acc_bounds 0 d Hd ltac:(lia)) as [_ H].
  unfold int_digits.
  assert (10 ^ Z.of_nat (String.length d) ≤ 10 ^ 3)%Z
    by (apply Z.pow_le_mono_r; lia).
  lia.
Qed.

(** *** The regular expressions *)

Lemma digits_then_pct_Some k s d :
  digits_then_pct k s = Some d →
  String.length d = k ∧ str_forallb isdigit d = true.
Proof.
  unfold digits_then_pct.
  destruct (_ =? _) eqn:Hl; cbn [andb]; [|done].
  destruct (str_forallb _ _) eqn:Ha; cbn [andb]; [|done].
  destruct (startswith "%" _); [|done].
  intros [= <-]. by apply Nat.eqb_eq in Hl.
Qed.

Lemma pct_match_at_Some s d :
  pct_match_at s = Some d →
  d ≠ "" ∧ String.length d ≤ 3 ∧ str_forallb isdigit d = true.
Proof.
  unfold pct_match_at.
  destruct (digits_then_pct 3 s) as [d3|] eqn:H3;
    [|destruct (digits_then_pct 2 s) as [d2|] eqn:H2].
  - intros [= <-]. apply digits_then_pct_Some in H3 as [Hl ?].
    split; [by destruct d3|]. split; [lia|done].
  - intros [= <-]. apply digits_then_pct_Some in H2 as [Hl ?].
    split; [by destruct d2|]. split; [lia|done].
  - intros [Hl ?]%digits_then_pct_Some.
    split; [by destruct d|]. split; [lia|done].
Qed.

Lemma re_search_pct_Some s d :
  re_search_pct s = Some d →
  d ≠ "" ∧ String.length d ≤ 3 ∧ str_forallb isdigit d = true.
Proof.
  induction s as [|c s IH]; simpl.
  - done.
  - destruct (pct_match_at (String c s)) eqn:E; [|done].
    intros [= <-]. by apply pct_match_at_Some in E.
Qed.

Lemma re_search_digits_Some s d :
  re_search_digits s = Some d → d ≠ "" ∧ str_forallb isdigit d = true.
Proof.
  induction s as [|c s IH]; [done|]. simpl.
  destruct (isdigit c) eqn:E; [|done].
  intros [= <-]. split; [done|].
  destruct (span_spec isdigit s) as (_ & _ & Hall & _).
  simpl. by rewrite E, Hall.
Qed.

End StringFacts.

(** * The section splitter *)

Lemma extract_section_absent content section_title :
  contains section_title content = false →
  extract_section content section_title = Ok (placeholder section_title).
Proof. intros H. unfold extract_section. by rewrite H. Qed.

(** The shape of the result when the title occurs: the title, the body up
    to the first ["## "] of the rest of the text, trimmed. *)
Lemma extract_section_shape content section_title :
  contains section_title content = true →
  ∃ pre body post,
    content = pre +:+ section_title +:+ body +:+ post
    ∧ find section_title content = Some (String.length pre)
    ∧ (find "## " (body +:+ post) = Some (String.length body)
       ∨ (post = "" ∧ find "## " body = None))
    ∧ extract_section content section_title
      = Ok (strip (section_title +:+ body)).
Proof.
  intros Hin. unfold extract_section. rewrite Hin. simpl.
  destruct (contains_true _ _ Hin) as [i Hi].
  unfold py_index. rewrite Hi. simpl.
  destruct (find_split _ _ _ Hi) as (pre & rest & Hs & Hlen & Hdrop).
  rewrite Hdrop. unfold py_find.
  rewrite str_length_app, str_drop_app_length.
  destruct (_ <? _) eqn:Hlt; [apply Nat.ltb_lt in Hlt; lia|].
  destruct (find "## " rest) as [j|] eqn:Hj; simpl.
  - destruct (find_Some _ _ _ Hj) as (Hle & _ & _).
    exists pre, (str_take j rest), (str_drop j rest).
    rewrite str_take_drop, length_str_take by done.
    rewrite str_take_app_plus. subst i. split_and!; auto.
  - exists pre, rest, "". rewrite !str_app_nil_r. subst i. split_and!; auto.
Qed.

Lemma extract_section_returns content section_title :
  ∃ r, extract_section content section_title = Ok r.
Proof.
  destruct (contains section_title content) eqn:Hin.
  - destruct (extract_section_shape _ _ Hin) as (? & ? & ? & _ & _ & _ & Hr).
    eauto.
  - eexists. by apply extract_section_absent.
Qed.

(** C3, as amended: when the title occurs in the text, [extract_section]
    returns the white-space-trimmed text that starts at the first
    occurrence of the title and ends immediately before the first
    occurrence of ["## "] at or after the end of the matched title,
    wherever in a line that occurrence is, or at the end of the text when
    there is none. *)
Theorem extract_section_present content section_title :
  contains section_title content = true →
  ∃ pre body post,
    content = pre +:+ section_title +:+ body +:+ post
    ∧ find section_title content = Some (String.length pre)
    ∧ (find "## " (body +:+ post) = Some (String.length body)
       ∨ (post = "" ∧ find "## " body = None))
    ∧ extract_section content section_title
      = Ok (strip (section_title +:+ body)).
Proof. apply extract_section_shape. Qed.

Lemma extract_section_present_witness :
  ∃ pre body post,
    marker_in_body = pre +:+ "## A" +:+ body +:+ post
    ∧ find "## A" marker_in_body = Some (String.length pre)
    ∧ (find "## " (body +:+ post) = Some (String.length body)
       ∨ (post = "" ∧ find "## " body = None))
    ∧ extract_section marker_in_body "## A" = Ok (strip ("## A" +:+ body)).
Proof. apply (extract_section_present marker_in_body "## A"). reflexivity. Defined.

(** C3, as stated, fails on ["## A\nsee ## note\n## B\nend"] with the
    title ["## A"]: the ["## "] in the middle of the body line ends the
    section, so the result is ["## A\nsee"] and not the text up to the
    header line ["## B"], trimmed or not. *)
Lemma extract_section_body_marker_counterexample :
  extract_section marker_in_body "## A" = Ok ("## A" +:+ nl +:+ "see")
  ∧ section_to_header_line marker_in_body "## A"
    = "## A" +:+ nl +:+ "see ## note" +:+ nl
  ∧ extract_section marker_in_body "## A"
    ≠ Ok (section_to_header_line marker_in_body "## A")
  ∧ extract_section marker_in_body "## A"
    ≠ Ok (strip (section_to_header_line marker_in_body "## A")).
Proof. split_and!; [reflexivity | reflexivity | discriminate | discriminate]. Qed.

(** C4, as amended: [extract_section] always returns a string and never
    raises; the string is non-empty whenever the title has a character
    that is not white space; and when the title does not occur in the
    text it is exactly the placeholder built from the title. *)
Theorem extract_section_total content section_title :
  ∃ r,
    extract_section content section_title = Ok r
    ∧ (str_forallb isspace section_title = false → r ≠ "")
    ∧ (contains section_title content = false →
       r = "## " +:+ section_title +:+ nl
           +:+ "No information found in this section.").
Proof.
  destruct (contains section_title content) eqn:Hin.
  - destruct (extract_section_shape _ _ Hin) as (pre & body & post & _ & _ & _ & Hr).
    eexists. split; [exact Hr|]. split; [|done].
    intros Hns He. apply strip_by_empty in He.
    rewrite str_forallb_app, Hns in He. done.
  - eexists. split; [by apply extract_section_absent|]. split; [|done].
    intros _. done.
Qed.

(** C4, as stated, fails for a title made of white space only: the empty
    title in the empty text, and the title ["\n"] in the text ["x\n"],
    both give the empty string. *)
Lemma extract_section_empty_counterexample :
  extract_section "" "" = Ok ""
  ∧ extract_section ("x" +:+ nl) nl = Ok "".
Proof. split; reflexivity. Qed.

(** * The medication parser *)

Section ParserFacts.

Implicit Types (m : gmap string value) (line entry : string).

Lemma span_ext (f g : ascii → bool) s :
  (∀ c, f c = g c) → span f s = span g s.
Proof.
  intros H. induction s as [|c s IH]; [done|]. simpl. by rewrite H, IH.
Qed.

Lemma first_line_name first_line :
  ∃ before_paren,
    py_nth (py_split first_line "(") 0 = Ok before_paren
    ∧ py_nth (py_split before_paren ":") 0
      = Ok (span (fun c => negb (name_stop c)) first_line).
Proof.
  eexists. split; [apply py_split_head|].
  rewrite py_split_head, !split_first_char, span_span. f_equal.
  apply span_ext. intros c. unfold name_stop. by rewrite negb_orb.
Qed.

Lemma first_line_effectiveness_spec first_line m :
  ∃ m',
    first_line_effectiveness first_line m = Ok m'
    ∧ (m' = m
       ∨ ∃ n, m' = <["effectiveness" := VInt n]> m ∧ (0 ≤ n)%Z
              ∧ (is_Some (re_search_pct first_line) → (n ≤ 999)%Z)).
Proof.
  unfold first_line_effectiveness.
  destruct (re_search_pct first_line) as [g|] eqn:Hg.
  { apply re_search_pct_Some in Hg as (Hne & Hlen & Hd).
    rewrite (py_int_digits _ Hne Hd). simpl. eexists. split; [done|].
    right. eexists. split; [done|]. split; [by apply int_digits_nonneg|].
    intros _. by apply int_digits_three. }
  destruct (contains "Effectiveness:" first_line) eqn:Hin; [|by eauto].
  destruct (py_split_second first_line "Effectiveness:" ltac:(done) Hin)
    as [part ->]. simpl.
  destruct (contains "%" (strip part)).
  - destruct (re_search_pct (strip part)) as [g|] eqn:Hg'; [|by eauto].
    apply re_search_pct_Some in Hg' as (Hne & Hlen & Hd).
    rewrite (py_int_digits _ Hne Hd). simpl. eexists. split; [done|].
    right. eexists. split; [done|]. split; [by apply int_digits_nonneg|].
    by intros [? [=]].
  - destruct (re_search_digits (strip part)) as [g|] eqn:Hg'; [|by eauto].
    apply re_search_digits_Some in Hg' as (Hne & Hd).
    rewrite (py_int_digits _ Hne Hd). simpl. eexists. split; [done|].
    right. eexists. split; [done|]. split; [by apply int_digits_nonneg|].
    by intros [? [=]].
Qed.

Lemma process_detail_line_attr m line :
  process_detail_line m line
  = Ok (match detail_attr line with
        | Some (k, v) => <[k := VStr v]> m
        | None => m
        end).
Proof.
  unfold process_detail_line, detail_attr.
  destruct (contains ":" line) eqn:Hin.
  - destruct (contains_true _ _ Hin) as [i Hi].
    unfold py_split_max1. by rewrite Hi.
  - by destruct (startswith "(" line && endswith ")" line).
Qed.

Lemma process_detail_lines_spec lines m :
  ∃ m',
    process_detail_lines m lines = Ok m'
    ∧ (∀ k, Forall (fun line => fst <$> detail_attr line ≠ Some k) lines →
            m' !! k = m !! k)
    ∧ (∀ k v, m' !! k = Some v →
              m !! k = Some v
              ∨ ∃ line s, line ∈ lines ∧ detail_attr line = Some (k, s)
                          ∧ v = VStr s).
Proof.
  revert m. induction lines as [|line rest IH]; intros m.
  { exists m. split; [done|]. split; [done|]. by left. }
  cbn [process_detail_lines]. rewrite process_detail_line_attr. simpl.
  destruct (IH (match detail_attr line with
                | Some (k, v) => <[k := VStr v]> m
                | None => m
                end)) as (m' & Hrun & Hkeep & Hfrom).
  exists m'. split; [done|]. split.
  - intros k [Hk Hrest]%Forall_cons. rewrite (Hkeep k Hrest).
    destruct (detail_attr line) as [[k' v']|]; [|done].
    apply lookup_insert_ne. intros ->. by apply Hk.
  - intros k v Hv. destruct (Hfrom k v Hv) as [Hm|(l & s' & Hl & Ha & ->)].
    + destruct (detail_attr line) as [[k' v']|] eqn:Ha; [|by left].
      destruct (decide (k' = k)) as [->|Hne].
      * rewrite lookup_insert_eq in Hm. injection Hm as <-.
        right. exists line, v'. split; [apply list_elem_of_here|done].
      * rewrite lookup_insert_ne in Hm by done. by left.
    + right. exists l, s'. split; [by apply list_elem_of_further|done].
Qed.

Lemma parse_entry_no_lines entry :
  entry_lines entry = [] → parse_entry entry = Ok None.
Proof. intros H. unfold parse_entry. by rewrite H. Qed.

Lemma parse_entry_lines entry first_line rest :
  entry_lines entry = first_line :: rest →
  ∃ m0 m,
    first_line_effectiveness first_line
      (<["name" := VStr (strip (span (fun c => negb (name_stop c)) first_line))]> ∅)
    = Ok m0
    ∧ process_detail_lines m0 rest = Ok m
    ∧ parse_entry entry = Ok (Some m).
Proof.
  intros H. unfold parse_entry. rewrite H. simpl.
  destruct (first_line_name first_line) as (bp & -> & Hname). simpl.
  rewrite Hname. simpl.
  destruct (first_line_effectiveness_spec first_line
    (<["name" := VStr (strip (span (fun c => negb (name_stop c)) first_line))]> ∅))
    as (m0 & Hm0 & _).
  destruct (process_detail_lines_spec rest m0) as (m & Hm & _).
  exists m0, m. rewrite Hm0. simpl. rewrite drop_0, Hm. done.
Qed.

Lemma parse_entry_total entry : ∃ r, parse_entry entry = Ok r.
Proof.
  destruct (entry_lines entry) as [|first_line rest] eqn:H.
  - eexists. by apply parse_entry_no_lines.
  - destruct (parse_entry_lines _ _ _ H) as (? & m & _ & _ & ->). eauto.
Qed.

Lemma parse_entries_omap medications med_entries :
  parse_entries medications med_entries
  = Ok (medications ++ omap entry_record med_entries).
Proof.
  revert medications.
  induction med_entries as [|entry rest IH]; intros medications.
  { simpl. by rewrite app_nil_r. }
  cbn [parse_entries omap list_omap]. unfold entry_record at 1.
  destruct (parse_entry_total entry) as [[m|] ->]; simpl.
  - by rewrite IH, <- app_assoc.
  - by rewrite IH.
Qed.

Lemma parse_medications_spec content :
  ∃ section,
    extract_section content MED_HEADER = Ok section
    ∧ parse_medications content
      = Ok (omap entry_record (drop 1 (re_split_bullets section))).
Proof.
  destruct (extract_section_returns content MED_HEADER) as (section & Hs).
  exists section. split; [done|].
  unfold parse_medications. rewrite Hs. simpl. by rewrite parse_entries_omap.
Qed.

Lemma entry_record_Some entry m :
  entry_record entry = Some m →
  ∃ first_line rest,
    entry_lines entry = first_line :: rest ∧ parse_entry entry = Ok (Some m).
Proof.
  unfold entry_record.
  destruct (entry_lines entry) as [|first_line rest] eqn:H.
  - by rewrite (parse_entry_no_lines _ H).
  - destruct (parse_entry entry) as [[m'|]|] eqn:E; try done.
    intros [= ->]. eauto.
Qed.

End ParserFacts.






Example ibuprofen_record :
  parse_medications (MED_HEADER +:+ nl +:+ "- " +:+ ibuprofen_entry)
  = Ok [ <["dosage" := VStr "200mg twice daily"]>
           (<["name" := VStr "Ibuprofen"]> ∅) ].
Proof. by vm_compute. Qed.

Example paracetamol_record :
  parse_medications (MED_HEADER +:+ nl +:+ "* " +:+ paracetamol_line)
  = Ok [ <["effectiveness" := VInt 85]>
           (<["name" := VStr "Paracetamol"]> ∅) ].
Proof. by vm_compute. Qed.

(** C9: [parse_medications] returns the empty sequence, and raises
    nothing, on the empty string and on every text in which the header
    ["## 3. Medication Recommendations"] does not occur. *)
Theorem parse_medications_no_section :
  parse_medications "" = Ok []
  ∧ ∀ content,
      contains "## 3. Medication Recommendations" content = false →
      parse_medications content = Ok [].
Proof.
  assert (∀ content, contains MED_HEADER content = false →
                     parse_medications content = Ok []) as H.
  { intros content Hin. unfold parse_medications.
    rewrite (extract_section_absent _ _ Hin). by vm_compute. }
  split; [by apply H|exact H].
Qed.

Lemma parse_medications_no_section_witness :
  parse_medications ("## 1. Key Findings" +:+ nl +:+ "- all clear") = Ok [].
Proof. apply (proj2 parse_medications_no_section). reflexivity. Defined.

(** * The display normalisations *)

Section DisplayFacts.

Implicit Types (s d pre post : string) (med : gmap string value).

Lemma find_unfold sub s :
  find sub s
  = if startswith sub s then Some 0
    else match s with
         | EmptyString => None
         | String _ s' => S <$> find sub s'
         end.
Proof. by destruct s. Qed.

Lemma find_app sub pre post : ∃ i, find sub (pre +:+ sub +:+ post) = Some i.
Proof.
  induction pre as [|c pre [i IH]].
  - exists 0. by rewrite str_app_nil_l, find_unfold, startswith_app.
  - rewrite str_app_cons, find_unfold.
    destruct (startswith sub _); [by eauto|]. rewrite IH. by eauto.
Qed.

Lemma contains_app sub pre post : contains sub (pre +:+ sub +:+ post) = true.
Proof. unfold contains. by destruct (find_app sub pre post) as [i ->]. Qed.





End DisplayFacts.

(** C6: the weighting starts from the uniform distribution and applies
    the checks for [chronic], [infectious] and [common] in that order,
    each overwriting the distribution, so that the last keyword in that
    order that occurs in the lower-cased section text decides the
    result; a text with both [chronic] and [common], in whichever
    textual order, gives [{20,20,40,20}]. *)
Theorem classification_last_match :
  (∀ classification,
     weigh_classification classification uniform
     = if contains "common" classification then [20; 20; 40; 20]%Z
       else if contains "infectious" classification then [20; 40; 20; 20]%Z
       else if contains "chronic" classification then [40; 20; 20; 20]%Z
       else [25; 25; 25; 25]%Z)
  ∧ (∀ a b c,
       weigh_classification (a +:+ "chronic" +:+ b +:+ "common" +:+ c) uniform
       = [20; 20; 40; 20]%Z)
  ∧ (∀ classification,
       contains "chronic" classification = true →
       contains "common" classification = true →
       weigh_classification classification uniform = [20; 20; 40; 20]%Z)
  ∧ (∀ content,
       contains CLASS_HEADER content = true →
       ∃ section,
         extract_section content CLASS_HEADER = Ok section
         ∧ create_diagnosis_chart content
           = Ok (weigh_classification (lower section) uniform))
  ∧ (∀ content,
       contains CLASS_HEADER content = false →
       create_diagnosis_chart content = Ok [25; 25; 25; 25]%Z).
Proof.
  split_and!.
  - intros t. unfold weigh_classification.
    by destruct (contains "common" t), (contains "infectious" t),
      (contains "chronic" t).
  - intros a b c. unfold weigh_classification.
    rewrite <- (str_app_assoc a "chronic"), <- (str_app_assoc _ b).
    by rewrite contains_app.
  - intros t _ Hcommon. unfold weigh_classification. by rewrite Hcommon.
  - intros content Hin.
    destruct (extract_section_returns content CLASS_HEADER) as [section Hs].
    exists section. split; [done|].
    unfold create_diagnosis_chart. by rewrite Hin, Hs.
  - intros content Hin. unfold create_diagnosis_chart. by rewrite Hin.
Qed.

Example chronic_then_common_sizes :
  create_diagnosis_chart chronic_then_common = Ok [20; 20; 40; 20]%Z.
Proof. reflexivity. Qed.

Lemma classification_last_match_witness :
  weigh_classification (lower "Chronic condition, Common in adults") uniform
  = [20; 20; 40; 20]%Z.
Proof.
  apply (proj1 (proj2 (proj2 classification_last_match))); reflexivity.
Defined.




(** * The analysis client *)

Section ClientFacts.

Variables (model : service) (content : string).

Lemma attempt_success attempt w t :
  model (length (calls w)) (request content) = answers t →
  attempt_body model content attempt w
  = (Return t, {| calls := calls w ++ [request content];
                  sleeps := sleeps w; errors := errors w |}).
Proof. intros H. unfold attempt_body. fold (request content). by rewrite H. Qed.

Lemma attempt_retry attempt w :
  fails (model (length (calls w)) (request content)) →
  attempt < MAX_RETRIES - 1 →
  attempt_body model content attempt w
  = (Continue, {| calls := calls w ++ [request content];
                  sleeps := sleeps w ++ [RETRY_DELAY];
                  errors := errors w |}).
Proof.
  intros (e & He & Hc) Hlt. unfold attempt_body. fold (request content).
  apply Nat.ltb_lt in Hlt.
  destruct (model _ _) as [[[] [t|]]|e']; simpl in *; simplify_eq;
    by rewrite ?Hc, Hlt.
Qed.

Lemma attempt_give_up attempt w :
  fails (model (length (calls w)) (request content)) →
  ¬ attempt < MAX_RETRIES - 1 →
  attempt_body model content attempt w
  = (Return FAILED_MESSAGE,
     {| calls := calls w ++ [request content];
        sleeps := sleeps w;
        errors := errors w
          ++ [failure_report (model (length (calls w)) (request content))] |}).
Proof.
  intros (e & He & Hc) Hlt. unfold attempt_body, failure_report.
  fold (request content). apply Nat.ltb_nlt in Hlt.
  destruct (model _ _) as [[[] [t|]]|e']; simpl in *; simplify_eq;
    by rewrite ?Hc, Hlt.
Qed.

(** [k] failures, then a success, within the three attempts. *)
Lemma analyze_success_after k w t :
  k < MAX_RETRIES →
  (∀ j, j < k → fails (model (length (calls w) + j) (request content))) →
  model (length (calls w) + k) (request content) = answers t →
  analyze_medical_report model content w
  = (Ok (Some t),
     {| calls := called w (request content) (S k);
        sleeps := slept w k; errors := errors w |}).
Proof.
  intros Hk Hfail Hok. unfold analyze_medical_report, called, slept.
  unfold MAX_RETRIES in *. cbn [seq retry_loop].
  destruct k as [|[|[|k]]]; [| | |lia].
  - rewrite (attempt_success 0 w t) by (by rewrite <- Hok, Nat.add_0_r).
    by rewrite app_nil_r.
  - rewrite (attempt_retry 0 w) by
      (try (unfold MAX_RETRIES; lia);
       by rewrite <- (Nat.add_0_r (length _)); apply Hfail; lia).
    rewrite (attempt_success 1 _ t) by
      (cbn [calls]; by rewrite length_app, <- Hok).
    cbn [calls sleeps errors replicate]. by rewrite <- app_assoc.
  - rewrite (attempt_retry 0 w) by
      (try (unfold MAX_RETRIES; lia);
       by rewrite <- (Nat.add_0_r (length _)); apply Hfail; lia).
    rewrite (attempt_retry 1 _) by
      (try (unfold MAX_RETRIES; lia);
       cbn [calls]; rewrite length_app; cbn [length]; apply Hfail; lia).
    rewrite (attempt_success 2 _ t) by
      (cbn [calls]; rewrite !length_app; cbn [length];
       by rewrite <- Nat.add_assoc, <- Hok).
    cbn [calls sleeps errors replicate]. by rewrite <- !app_assoc.
Qed.

(** Three failures in a row. *)
Lemma analyze_exhausted w :
  (∀ j, j < MAX_RETRIES →
        fails (model (length (calls w) + j) (request content))) →
  analyze_medical_report model content w
  = (Ok (Some FAILED_MESSAGE),
     {| calls := called w (request content) MAX_RETRIES;
        sleeps := slept w (MAX_RETRIES - 1);
        errors := errors w
          ++ [failure_report
                (model (length (calls w) + 2) (request content))] |}).
Proof.
  intros Hfail. unfold analyze_medical_report, called, slept.
  unfold MAX_RETRIES in *. cbn [seq retry_loop].
  rewrite (attempt_retry 0 w) by
    (try (unfold MAX_RETRIES; lia);
     by rewrite <- (Nat.add_0_r (length _)); apply Hfail; lia).
  rewrite (attempt_retry 1 _) by
    (try (unfold MAX_RETRIES; lia);
     cbn [calls]; rewrite length_app; cbn [length]; apply Hfail; lia).
  rewrite (attempt_give_up 2 _) by
    (try (unfold MAX_RETRIES; lia);
     cbn [calls]; rewrite !length_app; cbn [length];
     rewrite <- Nat.add_assoc; apply Hfail; lia).
  cbn [calls sleeps errors replicate Nat.sub].
  rewrite !length_app. cbn [length].
  by rewrite <- !app_assoc, <- Nat.add_assoc.
Qed.

End ClientFacts.

Lemma unavailable_fails n arg : fails (unavailable n arg).
Proof. eexists. split; reflexivity. Qed.

(** C1: a service that fails twice and then succeeds makes
    [analyze_medical_report] return the successful text after exactly
    three calls and two waits of [RETRY_DELAY = 2]; a service that always
    fails is called exactly three times; and a success at any attempt is
    returned at once, with no further call. *)
Theorem retry_policy :
  (∀ model content w t,
     fails (model (length (calls w)) (request content)) →
     fails (model (length (calls w) + 1) (request content)) →
     model (length (calls w) + 2) (request content) = answers t →
     analyze_medical_report model content w
     = (Ok (Some t),
        {| calls := calls w
             ++ [request content; request content; request content];
           sleeps := sleeps w ++ [2; 2]%Z;
           errors := errors w |}))
  ∧ (∀ model content w,
       (∀ n, fails (model n (request content))) →
       ∃ report,
         analyze_medical_report model content w
         = (Ok (Some FAILED_MESSAGE),
            {| calls := calls w
                 ++ [request content; request content; request content];
               sleeps := sleeps w ++ [2; 2]%Z;
               errors := errors w ++ [report] |}))
  ∧ (∀ model content w k t,
       k < 3 →
       (∀ j, j < k → fails (model (length (calls w) + j) (request content))) →
       model (length (calls w) + k) (request content) = answers t →
       analyze_medical_report model content w
       = (Ok (Some t),
          {| calls := calls w ++ replicate (S k) (request content);
             sleeps := sleeps w ++ replicate k 2%Z;
             errors := errors w |})).
Proof.
  split_and!.
  - intros model content w t H0 H1 Hok.
    rewrite (analyze_success_after model content 2 w t); [done| | |done].
    { unfold MAX_RETRIES. lia. }
    intros [|[|j]] Hj; [by rewrite Nat.add_0_r|done|lia].
  - intros model content w Hfail. eexists.
    by rewrite (analyze_exhausted model content w) by (intros; apply Hfail).
  - intros model content w k t Hk Hfail Hok.
    by rewrite (analyze_success_after model content k w t).
Qed.

Lemma retry_policy_witness :
  analyze_medical_report flaky "report" empty_world
  = (Ok (Some "## 1. Key Findings"),
     {| calls := [request "report"; request "report"; request "report"];
        sleeps := [2; 2]%Z;
        errors := [] |}).
Proof.
  apply (proj1 retry_policy flaky "report" empty_world "## 1. Key Findings").
  - eexists. split; reflexivity.
  - eexists. split; reflexivity.
  - reflexivity.
Defined.

(** C2, as amended: when the third attempt fails with a retried
    condition, [analyze_medical_report] raises nothing and returns the
    plain string ["AI analysis failed. Please try again later."], having
    reported the error once; on any successful attempt it returns the
    response text itself. *)
Theorem failure_is_plain_string :
  (∀ model content w,
     (∀ j, j < 3 → fails (model (length (calls w) + j) (request content))) →
     (analyze_medical_report model content w).1
     = Ok (Some "AI analysis failed. Please try again later.")
     ∧ errors (analyze_medical_report model content w).2
       = errors w
         ++ [failure_report (model (length (calls w) + 2) (request content))])
  ∧ (∀ model content w k t,
       k < 3 →
       (∀ j, j < k → fails (model (length (calls w) + j) (request content))) →
       model (length (calls w) + k) (request content) = answers t →
       (analyze_medical_report model content w).1 = Ok (Some t)).
Proof.
  split.
  - intros model content w Hfail.
    by rewrite (analyze_exhausted model content w Hfail).
  - intros model content w k t Hk Hfail Hok.
    by rewrite (analyze_success_after model content k w t).
Qed.

Lemma failure_is_plain_string_witness :
  (analyze_medical_report unavailable "report" empty_world).1
  = Ok (Some "AI analysis failed. Please try again later.")
  ∧ errors (analyze_medical_report unavailable "report" empty_world).2
    = [] ++ [failure_report (unavailable 2 (request "report"))].
Proof.
  apply (proj1 failure_is_plain_string unavailable "report" empty_world).
  intros j _. apply unavailable_fails.
Defined.

(** C2, as stated, fails: a service that always fails and a service that
    answers ["AI analysis failed. Please try again later."] at once make
    [analyze_medical_report] return the same value, so no reading of the
    returned value gives a [Failure] tagged ["ai_unavailable"] in the one
    case and a [Success] in the other. *)
Lemma tagged_failure_counterexample :
  (analyze_medical_report unavailable "report" empty_world).1
  = (analyze_medical_report echo_failure "report" empty_world).1
  ∧ ¬ ∃ view : result (option string) → AnalysisOutcome,
        (∀ model content w,
           (∀ j, j < 3 →
                 fails (model (length (calls w) + j) (request content))) →
           ∃ message,
             view (analyze_medical_report model content w).1
             = Failure "ai_unavailable" message)
        ∧ (∀ model content w t,
             model (length (calls w)) (request content) = answers t →
             view (analyze_medical_report model content w).1 = Success t).
Proof.
  assert ((analyze_medical_report unavailable "report" empty_world).1
          = (analyze_medical_report echo_failure "report" empty_world).1)
    as Heq by reflexivity.
  split; [exact Heq|].
  intros (view & Hfail & Hok).
  destruct (Hfail unavailable "report" empty_world) as [message Hm].
  { intros j _. apply unavailable_fails. }
  specialize (Hok echo_failure "report" empty_world FAILED_MESSAGE eq_refl).
  rewrite Heq, Hok in Hm. discriminate.
Qed.

(** C10: when all three attempts fail with a retried condition, the
    returned value is the string
    ["AI analysis failed. Please try again later."], and it is the very
    value returned when the service answers that text at the first
    attempt: nothing in it tells a failure from a success. *)
Theorem failure_indistinguishable model content w :
  (∀ j, j < 3 → fails (model (length (calls w) + j) (request content))) →
  (analyze_medical_report model content w).1
  = Ok (Some "AI analysis failed. Please try again later.")
  ∧ echo_failure (length (calls w)) (request content)
    = answers "AI analysis failed. Please try again later."
  ∧ (analyze_medical_report echo_failure content w).1
    = (analyze_medical_report model content w).1.
Proof.
  intros Hfail. rewrite (analyze_exhausted model content w Hfail).
  split; [done|]. split; [done|].
  rewrite (analyze_success_after echo_failure content 0 w FAILED_MESSAGE);
    [done | unfold MAX_RETRIES; lia | intros; lia | done].
Qed.

Lemma failure_indistinguishable_witness :
  (analyze_medical_report unavailable "report" empty_world).1
  = Ok (Some "AI analysis failed. Please try again later.")
  ∧ echo_failure 0 (request "report")
    = answers "AI analysis failed. Please try again later."
  ∧ (analyze_medical_report echo_failure "report" empty_world).1
    = (analyze_medical_report unavailable "report" empty_world).1.
Proof.
  apply (failure_indistinguishable unavailable "report" empty_world).
  intros j _. apply unavailable_fails.
Defined.

(** * More on the analysis client *)

Section ClientInvariants.

Variables (model : service) (content : string).

Lemma attempt_propagate attempt w e :
  model (length (calls w)) (request content) = Throws e →
  caught e = false →
  attempt_body model content attempt w
  = (Propagate e, {| calls := calls w ++ [request content];
                     sleeps := sleeps w; errors := errors w |}).
Proof.
  intros H Hc. unfold attempt_body. fold (request content).
  by rewrite H, Hc.
Qed.

(** [k] failures, then an exception that is not caught. *)
Lemma analyze_raises_after k w e :
  k < MAX_RETRIES →
  (∀ j, j < k → fails (model (length (calls w) + j) (request content))) →
  model (length (calls w) + k) (request content) = Throws e →
  caught e = false →
  analyze_medical_report model content w
  = (Raise e,
     {| calls := called w (request content) (S k);
        sleeps := slept w k; errors := errors w |}).
Proof.
  intros Hk Hfail Hthrow Hc. unfold analyze_medical_report, called, slept.
  unfold MAX_RETRIES in *. cbn [seq retry_loop].
  destruct k as [|[|[|k]]]; [| | |lia].
  - rewrite (attempt_propagate 0 w e) by (by rewrite <- ?Hthrow, ?Nat.add_0_r).
    by rewrite app_nil_r.
  - rewrite (attempt_retry model content 0 w) by
      (try (unfold MAX_RETRIES; lia);
       by rewrite <- (Nat.add_0_r (length _)); apply Hfail; lia).
    rewrite (attempt_propagate 1 _ e) by
      (try done; cbn [calls]; by rewrite length_app, <- Hthrow).
    cbn [calls sleeps errors replicate]. by rewrite <- app_assoc.
  - rewrite (attempt_retry model content 0 w) by
      (try (unfold MAX_RETRIES; lia);
       by rewrite <- (Nat.add_0_r (length _)); apply Hfail; lia).
    rewrite (attempt_retry model content 1 _) by
      (try (unfold MAX_RETRIES; lia);
       cbn [calls]; rewrite length_app; cbn [length]; apply Hfail; lia).
    rewrite (attempt_propagate 2 _ e) by
      (try done; cbn [calls]; rewrite !length_app; cbn [length];
       by rewrite <- Nat.add_assoc, <- Hthrow).
    cbn [calls sleeps errors replicate]. by rewrite <- !app_assoc.
Qed.

(** Every outcome of a call is a text, a retried failure, or an exception
    that is let through. *)
Lemma outcome_cases (o : call_outcome) :
  (∃ t, o = answers t) ∨ fails o ∨ uncaught o.
Proof.
  destruct o as [[[] [t|]]|e].
  - left. by exists t.
  - right. left. eexists. by split.
  - right. left. eexists. by split.
  - right. left. eexists. by split.
  - destruct (caught e) eqn:Hc.
    + right. left. exists e. by split.
    + right. right. by exists e.
Qed.

End ClientInvariants.

(** X1: an exception of the service that is neither a [GoogleAPIError]
    nor a [ValueError] is not retried: it leaves
    [analyze_medical_report] at the attempt that met it, after the
    retried failures before it, without a further call, wait or
    [st.error] message. *)
Theorem analyze_propagates model content w k e :
  k < 3 →
  (∀ j, j < k → fails (model (length (calls w) + j) (request content))) →
  model (length (calls w) + k) (request content) = Throws e →
  caught e = false →
  analyze_medical_report model content w
  = (Raise e,
     {| calls := calls w ++ replicate (S k) (request content);
        sleeps := sleeps w ++ replicate k 2%Z;
        errors := errors w |}).
Proof.
  intros Hk Hfail Hthrow Hc.
  by rewrite (analyze_raises_after model content k w e).
Qed.

Lemma analyze_propagates_witness :
  analyze_medical_report broken "report" empty_world
  = (Raise (OtherError "connection reset"),
     {| calls := [] ++ replicate 1 (request "report");
        sleeps := [] ++ replicate 0 2%Z;
        errors := [] |}).
Proof.
  apply (analyze_propagates broken "report" empty_world 0
           (OtherError "connection reset")).
  - lia.
  - intros j Hj. lia.
  - reflexivity.
  - reflexivity.
Defined.

(** X2: whatever the service does, [analyze_medical_report] calls it at
    least once and at most three times, always with the same argument,
    waits [RETRY_DELAY] once between two calls, never falls off its loop
    (it never returns [None]), and reports through [st.error] at most
    once, namely when it returns the failure sentence after the third
    call. *)
Theorem analyze_bounded model content w :
  ∃ n,
    1 ≤ n ≤ 3
    ∧ calls (analyze_medical_report model content w).2
      = calls w ++ replicate n (request content)
    ∧ sleeps (analyze_medical_report model content w).2
      = sleeps w ++ replicate (n - 1) 2%Z
    ∧ (analyze_medical_report model content w).1 ≠ Ok None
    ∧ (errors (analyze_medical_report model content w).2 = errors w
       ∨ ∃ report,
           errors (analyze_medical_report model content w).2
           = errors w ++ [report]
           ∧ (analyze_medical_report model content w).1
             = Ok (Some FAILED_MESSAGE)
           ∧ n = 3).
Proof.
  assert (∀ k t,
    k < 3 →
    (∀ j, j < k → fails (model (length (calls w) + j) (request content))) →
    model (length (calls w) + k) (request content) = answers t →
    ∃ n, 1 ≤ n ≤ 3
      ∧ calls (analyze_medical_report model content w).2
        = calls w ++ replicate n (request content)
      ∧ sleeps (analyze_medical_report model content w).2
        = sleeps w ++ replicate (n - 1) 2%Z
      ∧ (analyze_medical_report model content w).1 ≠ Ok None
      ∧ (errors (analyze_medical_report model content w).2 = errors w
         ∨ ∃ report,
             errors (analyze_medical_report model content w).2
             = errors w ++ [report]
             ∧ (analyze_medical_report model content w).1
               = Ok (Some FAILED_MESSAGE)
             ∧ n = 3)) as Hsuccess.
  { intros k t Hk Hfail Hok. exists (S k).
    rewrite (analyze_success_after model content k w t) by done.
    cbn [fst snd calls sleeps errors]. unfold called, slept.
    rewrite Nat.sub_succ, Nat.sub_0_r. split_and!; auto; lia. }
  assert (∀ k e,
    k < 3 →
    (∀ j, j < k → fails (model (length (calls w) + j) (request content))) →
    model (length (calls w) + k) (request content) = Throws e →
    caught e = false →
    ∃ n, 1 ≤ n ≤ 3
      ∧ calls (analyze_medical_report model content w).2
        = calls w ++ replicate n (request content)
      ∧ sleeps (analyze_medical_report model content w).2
        = sleeps w ++ replicate (n - 1) 2%Z
      ∧ (analyze_medical_report model content w).1 ≠ Ok None
      ∧ (errors (analyze_medical_report model content w).2 = errors w
         ∨ ∃ report,
             errors (analyze_medical_report model content w).2
             = errors w ++ [report]
             ∧ (analyze_medical_report model content w).1
               = Ok (Some FAILED_MESSAGE)
             ∧ n = 3)) as Hraise.
  { intros k e Hk Hfail Hthrow Hc. exists (S k).
    rewrite (analyze_raises_after model content k w e) by done.
    cbn [fst snd calls sleeps errors]. unfold called, slept.
    rewrite Nat.sub_succ, Nat.sub_0_r. split_and!; auto; lia. }
  destruct (outcome_cases (model (length (calls w) + 0) (request content)))
    as [[t H0]|[H0|(e & H0 & Hc)]];
    [by apply (Hsuccess 0 t); [lia|intros; lia|]
    | |by apply (Hraise 0 e); [lia|intros; lia| |]].
  destruct (outcome_cases (model (length (calls w) + 1) (request content)))
    as [[t H1]|[H1|(e & H1 & Hc)]].
  { apply (Hsuccess 1 t); [lia| |done].
    intros j Hj. by replace j with 0 by lia. }
  2:{ apply (Hraise 1 e); [lia| |done|done].
      intros j Hj. by replace j with 0 by lia. }
  assert (∀ j, j < 2 →
    fails (model (length (calls w) + j) (request content))) as H01.
  { intros [|[|j]] Hj; [done|done|lia]. }
  destruct (outcome_cases (model (length (calls w) + 2) (request content)))
    as [[t H2]|[H2|(e & H2 & Hc)]].
  { by apply (Hsuccess 2 t); [lia| |]. }
  2:{ by apply (Hraise 2 e); [lia| | |]. }
  exists 3. rewrite (analyze_exhausted model content w).
  - cbn [fst snd calls sleeps errors]. unfold called, slept, MAX_RETRIES.
    split_and!; auto; try lia. right. eauto.
  - intros [|[|[|j]]] Hj; [done|done|done|unfold MAX_RETRIES in Hj; lia].
Qed.

(** * More on the section splitter *)

Section StripFacts.

Implicit Types (s t a b sub : string) (c : ascii) (f : ascii → bool).

Lemma lstrip_by_head f c s : f c = false → lstrip_by f (String c s) = String c s.
Proof. intros H. simpl. by rewrite H. Qed.

Lemma rstrip_by_head f c s :
  rstrip_by f (String c s) = "" ∨ ∃ r, rstrip_by f (String c s) = String c r.
Proof.
  simpl. destruct (rstrip_by f s); [|by eauto].
  destruct (f c); by eauto.
Qed.

Lemma rstrip_by_idemp f s : rstrip_by f (rstrip_by f s) = rstrip_by f s.
Proof.
  induction s as [|c s IH]; [done|]. simpl.
  destruct (rstrip_by f s) as [|c' r] eqn:E.
  - destruct (f c) eqn:Hc; [done|]. simpl. by rewrite Hc.
  - cbn [rstrip_by] in *. by rewrite IH.
Qed.

Lemma lstrip_by_stop f s :
  match lstrip_by f s with
  | EmptyString => True
  | String c _ => f c = false
  end.
Proof.
  induction s as [|c s IH]; [done|]. simpl.
  destruct (f c) eqn:E; [done|]. simpl. done.
Qed.

Lemma strip_by_idemp f s : strip_by f (strip_by f s) = strip_by f s.
Proof.
  unfold strip_by. pose proof (lstrip_by_stop f s) as Hstop.
  destruct (lstrip_by f s) as [|c t]; [done|].
  destruct (rstrip_by_head f c t) as [->|[r Hr]]; [done|].
  rewrite Hr, (lstrip_by_head f c r Hstop), <- Hr.
  apply rstrip_by_idemp.
Qed.

Lemma length_lstrip_by f s : String.length (lstrip_by f s) ≤ String.length s.
Proof.
  induction s as [|c s IH]; [done|]. simpl. destruct (f c); simpl; lia.
Qed.

Lemma length_rstrip_by f s : String.length (rstrip_by f s) ≤ String.length s.
Proof.
  induction s as [|c s IH]; [done|]. simpl.
  destruct (rstrip_by f s); [destruct (f c)|]; simpl in *; lia.
Qed.

(** A non-empty string that stripping leaves alone starts with a
    character that is kept, and is left alone by [rstrip_by]. *)
Lemma strip_by_fixed f c s :
  strip_by f (String c s) = String c s →
  f c = false ∧ rstrip_by f (String c s) = String c s.
Proof.
  unfold strip_by. intros H. destruct (f c) eqn:Hc.
  - simpl in H. rewrite Hc in H.
    pose proof (length_rstrip_by f (lstrip_by f s)).
    pose proof (length_lstrip_by f s).
    rewrite H in *. simpl in *. lia.
  - by rewrite (lstrip_by_head f c s Hc) in H.
Qed.

Lemma rstrip_by_app_l f t b :
  t ≠ "" → rstrip_by f t = t →
  rstrip_by f (t +:+ b) = t +:+ rstrip_by f b.
Proof.
  induction t as [|c t IH]; [done|]. intros _ H.
  rewrite !str_app_cons. simpl in *.
  destruct (rstrip_by f t) as [|c' r] eqn:E.
  - destruct (f c) eqn:Hc; [done|]. injection H as <-.
    rewrite !str_app_nil_l. by destruct (rstrip_by f b).
  - injection H as H. rewrite IH by (done || by rewrite <- H).
    rewrite <- H. by rewrite str_app_cons.
Qed.

Lemma rstrip_by_app_r f a t :
  t ≠ "" → rstrip_by f t = t → rstrip_by f (a +:+ t) = a +:+ t.
Proof.
  intros Hne H. induction a as [|c a IH]; [done|].
  rewrite str_app_cons. simpl. rewrite IH.
  destruct a; [by destruct t|done].
Qed.

(** Stripping a text that begins with a stripped, non-empty title only
    touches what follows the title. *)
Lemma strip_by_title f t b :
  t ≠ "" → strip_by f t = t →
  strip_by f (t +:+ b) = t +:+ rstrip_by f b.
Proof.
  intros Hne H. destruct t as [|c t]; [done|].
  destruct (strip_by_fixed f c t H) as [Hc Hr].
  unfold strip_by. rewrite str_app_cons, (lstrip_by_head f c _ Hc).
  rewrite <- str_app_cons. by apply rstrip_by_app_l.
Qed.

Lemma find_app_le sub a b :
  ∃ i, find sub (a +:+ sub +:+ b) = Some i ∧ i ≤ String.length a.
Proof.
  induction a as [|c a (i & IH & Hle)].
  - exists 0. by rewrite str_app_nil_l, find_unfold, startswith_app.
  - rewrite str_app_cons, find_unfold.
    destruct (startswith sub _); [exists 0; split; [done|simpl; lia]|].
    rewrite IH. exists (S i). split; [done|simpl; lia].
Qed.

Lemma contains_app_l sub a b :
  contains sub a = true → contains sub (a +:+ b) = true.
Proof.
  intros [i Hi]%contains_true.
  destruct (find_split _ _ _ Hi) as (p & q & -> & _ & _).
  rewrite !str_app_assoc. apply contains_app.
Qed.

(** When the first occurrence of a non-empty [sub] in [a +:+ b] is at the
    end of [a] or later, [a] has none. *)
Lemma find_not_before sub a b i :
  sub ≠ "" → find sub (a +:+ b) = Some i → String.length a ≤ i →
  contains sub a = false.
Proof.
  intros Hsub Hi Hle. destruct (contains sub a) eqn:Hin; [|done].
  destruct (contains_true _ _ Hin) as [j Hj].
  destruct (find_split _ _ _ Hj) as (p & q & -> & _ & _).
  rewrite !str_app_assoc in Hi.
  destruct (find_app_le sub p (q +:+ b)) as (i' & Hi' & Hle').
  rewrite Hi in Hi'. injection Hi' as <-.
  rewrite !str_length_app in Hle. destruct sub; [done|]. simpl in Hle. lia.
Qed.

Lemma contains_None sub s : find sub s = None → contains sub s = false.
Proof. unfold contains. by intros ->. Qed.

End StripFacts.

(** When the title is trimmed and occurs, the result is the title
    followed by the body, without its trailing white space, and the body
    has no ["## "]. *)
Lemma extract_section_title_body content section_title :
  contains section_title content = true →
  section_title ≠ "" → strip section_title = section_title →
  ∃ pre body rest,
    content = pre +:+ section_title +:+ body +:+ rest
    ∧ find section_title content = Some (String.length pre)
    ∧ contains "## " body = false
    ∧ rstrip_by isspace body = body
    ∧ extract_section content section_title = Ok (section_title +:+ body).
Proof.
  intros Hin Hne Htrim.
  destruct (extract_section_shape _ _ Hin)
    as (pre & body & post & Hs & Hfind & Hmark & Hr).
  destruct (rstrip_by_split isspace body) as (r & Hbody & _).
  exists pre, (rstrip_by isspace body), (r +:+ post).
  split.
  { rewrite Hs. f_equal. f_equal. by rewrite <- str_app_assoc, <- Hbody. }
  split; [done|].
  split; [|split; [apply rstrip_by_idemp|]].
  - assert (contains "## " body = false) as Hno.
    { destruct Hmark as [Hm|[_ Hm]]; [|by apply contains_None].
      by apply (find_not_before "## " body post _ ltac:(done) Hm). }
    destruct (contains "## " (rstrip_by isspace body)) eqn:E; [|done].
    apply (contains_app_l _ _ r) in E. by rewrite <- Hbody, Hno in E.
  - rewrite Hr. f_equal. by apply strip_by_title.
Qed.

Lemma extract_section_again section_title body :
  section_title ≠ "" → strip section_title = section_title →
  contains "## " body = false → rstrip_by isspace body = body →
  extract_section (section_title +:+ body) section_title
  = Ok (section_title +:+ body).
Proof.
  intros Hne Htrim Hno Hbody. unfold extract_section, contains, py_index.
  rewrite find_unfold, startswith_app. simpl.
  unfold py_find. rewrite str_length_app, str_drop_app_length.
  destruct (_ <? _) eqn:Hlt; [apply Nat.ltb_lt in Hlt; lia|].
  rewrite (contains_false _ _ Hno). simpl. f_equal.
  unfold strip. by rewrite strip_by_title, Hbody.
Qed.

Lemma strip_placeholder section_title :
  strip (placeholder section_title) = placeholder section_title.
Proof.
  unfold placeholder, strip, strip_by.
  change ("## " +:+ ?x) with (String "#" ("# " +:+ x)).
  rewrite lstrip_by_head by done.
  change (String "#" ("# " +:+ ?x)) with ("## " +:+ x).
  rewrite <- !str_app_assoc. by apply rstrip_by_app_r.
Qed.

(** X3: when a non-empty, trimmed title occurs in the text, the result
    of [extract_section] is the title followed by the text after its
    first occurrence, cut before the next ["## "] and without trailing
    white space: what follows the title in the result has no ["## "], so
    nothing of a following section is included. *)
Theorem extract_section_stops content section_title :
  contains section_title content = true →
  section_title ≠ "" → strip section_title = section_title →
  ∃ pre body rest,
    content = pre +:+ section_title +:+ body +:+ rest
    ∧ find section_title content = Some (String.length pre)
    ∧ contains "## " body = false
    ∧ extract_section content section_title = Ok (section_title +:+ body).
Proof.
  intros Hin Hne Htrim.
  destruct (extract_section_title_body _ _ Hin Hne Htrim)
    as (pre & body & rest & ? & ? & ? & _ & ?).
  by exists pre, body, rest.
Qed.

Lemma extract_section_stops_witness :
  ∃ pre body rest,
    two_sections = pre +:+ "## 1. Key Findings" +:+ body +:+ rest
    ∧ find "## 1. Key Findings" two_sections = Some (String.length pre)
    ∧ contains "## " body = false
    ∧ extract_section two_sections "## 1. Key Findings"
      = Ok ("## 1. Key Findings" +:+ body).
Proof.
  apply (extract_section_stops two_sections "## 1. Key Findings");
    [reflexivity | discriminate | reflexivity].
Defined.

(** X4: extracting a section from the result of its own extraction gives
    the same text again, for a non-empty, trimmed title that occurs in
    the text. *)
Theorem extract_section_idempotent content section_title section :
  contains section_title content = true →
  section_title ≠ "" → strip section_title = section_title →
  extract_section content section_title = Ok section →
  extract_section section section_title = Ok section.
Proof.
  intros Hin Hne Htrim Hs.
  destruct (extract_section_title_body _ _ Hin Hne Htrim)
    as (pre & body & rest & _ & _ & Hno & Hbody & Hr).
  rewrite Hr in Hs. injection Hs as <-.
  by apply extract_section_again.
Qed.

Lemma extract_section_idempotent_witness :
  extract_section ("## 1. Key Findings" +:+ nl +:+ "- fever")
                  "## 1. Key Findings"
  = Ok ("## 1. Key Findings" +:+ nl +:+ "- fever").
Proof.
  apply (extract_section_idempotent two_sections "## 1. Key Findings");
    [reflexivity | discriminate | reflexivity | reflexivity].
Defined.

(** X5: whatever the text and the title, the string [extract_section]
    returns has no white space at either end: trimming it again changes
    nothing. *)
Theorem extract_section_trimmed content section_title section :
  extract_section content section_title = Ok section →
  strip section = section.
Proof.
  intros Hs. destruct (contains section_title content) eqn:Hin.
  - destruct (extract_section_shape _ _ Hin) as (? & body & ? & _ & _ & _ & Hr).
    rewrite Hr in Hs. injection Hs as <-. apply strip_by_idemp.
  - rewrite (extract_section_absent _ _ Hin) in Hs. injection Hs as <-.
    apply strip_placeholder.
Qed.

Lemma extract_section_trimmed_witness :
  strip ("## 1. Key Findings" +:+ nl +:+ "- fever")
  = "## 1. Key Findings" +:+ nl +:+ "- fever".
Proof.
  apply (extract_section_trimmed two_sections "## 1. Key Findings").
  reflexivity.
Defined.

(** * More on the medication parser *)

Section ParserInvariants.

Implicit Types (m : gmap string value) (s d pre post : string).

Lemma re_search_pct_unfold s :
  re_search_pct s
  = match pct_match_at s with
    | Some d => Some d
    | None =>
        match s with
        | EmptyString => None
        | String _ s' => re_search_pct s'
        end
    end.
Proof. by destruct s. Qed.

Lemma digits_then_pct_split k s d :
  digits_then_pct k s = Some d → ∃ rest, s = d +:+ "%" +:+ rest.
Proof.
  unfold digits_then_pct.
  destruct (_ =? _); cbn [andb]; [|done].
  destruct (str_forallb _ _); cbn [andb]; [|done].
  destruct (startswith "%" _) eqn:E; [|done].
  intros [= <-]. apply startswith_inv in E as [rest E].
  exists rest. by rewrite <- E, str_take_drop.
Qed.

Lemma pct_match_at_split s d :
  pct_match_at s = Some d → ∃ rest, s = d +:+ "%" +:+ rest.
Proof.
  unfold pct_match_at.
  destruct (digits_then_pct 3 s) as [d3|] eqn:H3;
    [|destruct (digits_then_pct 2 s) as [d2|] eqn:H2].
  - intros [= <-]. by apply digits_then_pct_split in H3.
  - intros [= <-]. by apply digits_then_pct_split in H2.
  - apply digits_then_pct_split.
Qed.

Lemma re_search_pct_split s d :
  re_search_pct s = Some d → ∃ pre rest, s = pre +:+ d +:+ "%" +:+ rest.
Proof.
  induction s as [|c s IH]; [done|]. rewrite re_search_pct_unfold.
  destruct (pct_match_at (String c s)) as [g|] eqn:E.
  - intros [= <-]. apply pct_match_at_split in E as [rest E].
    by exists "", rest.
  - intros (pre & rest & ->)%IH. by exists (String c pre), rest.
Qed.

Lemma re_search_pct_percent s :
  contains "%" s = false → re_search_pct s = None.
Proof.
  intros Hno. destruct (re_search_pct s) as [d|] eqn:E; [|done].
  apply re_search_pct_split in E as (pre & rest & ->).
  by rewrite <- (str_app_assoc pre d), contains_app in Hno.
Qed.

Lemma digits_then_pct_exact d post :
  str_forallb isdigit d = true →
  digits_then_pct (String.length d) (d +:+ "%" +:+ post) = Some d.
Proof.
  intros Hd. unfold digits_then_pct.
  rewrite str_take_app_length, str_drop_app_length, Nat.eqb_refl, Hd.
  by rewrite startswith_app.
Qed.

Lemma digits_then_pct_long k d post :
  String.length d < k → digits_then_pct k (d +:+ "%" +:+ post) = None.
Proof.
  intros Hk. unfold digits_then_pct.
  replace k with (String.length d + S (k - String.length d - 1)) by lia.
  rewrite str_take_app_plus, str_forallb_app.
  change (str_take (S ?n) ("%" +:+ post))
    with (String "%" (str_take n post)).
  cbn [str_forallb]. change (isdigit "%") with false.
  cbn [andb]. rewrite !andb_false_r. cbn [andb]. done.
Qed.

Lemma pct_match_at_exact d post :
  d ≠ "" → String.length d ≤ 3 → str_forallb isdigit d = true →
  pct_match_at (d +:+ "%" +:+ post) = Some d.
Proof.
  intros Hne Hlen Hd. unfold pct_match_at.
  assert (String.length d = 1 ∨ String.length d = 2 ∨ String.length d = 3)
    as [H|[H|H]] by (destruct d; [done|simpl in *; lia]).
  - rewrite !digits_then_pct_long by lia. rewrite <- H.
    by apply digits_then_pct_exact.
  - rewrite digits_then_pct_long by lia.
    rewrite <- H at 1. by rewrite digits_then_pct_exact.
  - rewrite <- H at 1. by rewrite digits_then_pct_exact.
Qed.

(** A run of digits that ends with [%] cannot begin inside a text that
    has no [%] and does not end with a digit. *)
Lemma no_match_across p g rest tail :
  p ≠ "" →
  str_forallb (fun c => negb (Ascii.eqb c "%")) p = true →
  no_trailing_digit p = true →
  str_forallb isdigit g = true →
  g +:+ "%" +:+ rest = p +:+ tail → False.
Proof.
  revert g. induction p as [|c p IH]; [done|].
  intros g _ Hp Hlast Hg Heq.
  simpl in Hp. apply andb_true_iff in Hp as [Hc Hp].
  destruct g as [|c' g].
  - rewrite str_app_nil_l in Heq. injection Heq as <- _. done.
  - rewrite !str_app_cons in Heq. injection Heq as -> Heq.
    simpl in Hg. apply andb_true_iff in Hg as [Hc' Hg].
    destruct p as [|c2 p].
    + simpl in Hlast. by rewrite Hc' in Hlast.
    + by apply (IH g).
Qed.

Lemma re_search_pct_first pre d post :
  str_forallb (fun c => negb (Ascii.eqb c "%")) pre = true →
  no_trailing_digit pre = true →
  d ≠ "" → String.length d ≤ 3 → str_forallb isdigit d = true →
  re_search_pct (pre +:+ d +:+ "%" +:+ post) = Some d.
Proof.
  intros Hpre Hlast Hne Hlen Hd.
  induction pre as [|c pre IH].
  - rewrite str_app_nil_l, re_search_pct_unfold.
    by rewrite pct_match_at_exact.
  - rewrite re_search_pct_unfold.
    destruct (pct_match_at (String c pre +:+ d +:+ "%" +:+ post))
      as [g|] eqn:E.
    + exfalso. destruct (pct_match_at_Some _ _ E) as (_ & _ & Hg).
      apply pct_match_at_split in E as [rest E]. symmetry in E.
      by apply (no_match_across (String c pre) g rest _ ltac:(done) Hpre Hlast Hg E).
    + rewrite str_app_cons. apply IH.
      * simpl in Hpre. by apply andb_true_iff in Hpre as [_ ?].
      * destruct pre; [done|exact Hlast].
Qed.

Lemma first_line_effectiveness_pct first_line m d :
  re_search_pct first_line = Some d →
  first_line_effectiveness first_line m
  = Ok (<["effectiveness" := VInt (int_digits d)]> m).
Proof.
  intros H. unfold first_line_effectiveness. rewrite H.
  destruct (re_search_pct_Some _ _ H) as (Hne & _ & Hd).
  by rewrite (py_int_digits _ Hne Hd).
Qed.

Lemma first_line_effectiveness_unset first_line m :
  contains "%" first_line = false →
  contains "Effectiveness:" first_line = false →
  first_line_effectiveness first_line m = Ok m.
Proof.
  intros Hpct Heff. unfold first_line_effectiveness.
  by rewrite (re_search_pct_percent _ Hpct), Heff.
Qed.

(** *** Detail lines *)


Lemma process_detail_lines_keeps lines m k :
  ∃ m', process_detail_lines m lines = Ok m'
        ∧ (is_Some (m !! k) → is_Some (m' !! k)).
Proof.
  revert m. induction lines as [|line rest IH]; intros m; [by eauto|].
  cbn [process_detail_lines]. rewrite process_detail_line_attr. simpl.
  destruct (IH (match detail_attr line with
                | Some (k, v) => <[k := VStr v]> m
                | None => m
                end)) as (m' & -> & Hkeep).
  exists m'. split; [done|]. intros Hk. apply Hkeep.
  destruct (detail_attr line) as [[k' v']|]; [|done].
  rewrite lookup_insert_is_Some. destruct (decide (k' = k)); auto.
Qed.



(** *** Keys *)

Lemma lower_char_idemp c : lower_char (lower_char c) = lower_char c.
Proof. by destruct c as [[] [] [] [] [] [] [] []]. Qed.

Lemma lower_char_no_space c :
  Ascii.eqb c " " = false → Ascii.eqb (lower_char c) " " = false.
Proof. by destruct c as [[] [] [] [] [] [] [] []]. Qed.

Lemma contains_char_false a s :
  str_forallb (fun c => negb (Ascii.eqb c a)) s = true →
  contains (String a "") s = false.
Proof.
  intros H. unfold contains. induction s as [|c s IH]; [done|].
  simpl in H. apply andb_true_iff in H as [Hc Hs].
  rewrite find_unfold. simpl. rewrite (Ascii.eqb_sym a c).
  apply negb_true_iff in Hc as ->. simpl.
  specialize (IH Hs). by destruct (find (String a "") s).
Qed.

Lemma attr_key_normal key :
  contains " " (attr_key key) = false ∧ lower (attr_key key) = attr_key key.
Proof.
  unfold attr_key. generalize (strip key). clear key. intros s. split.
  - apply contains_char_false. induction s as [|c s IH]; [done|].
    unfold lower in *. simpl.
    destruct (Ascii.eqb (lower_char c) " ") eqn:E; simpl; [done|].
    by rewrite E.
  - unfold lower. induction s as [|c s IH]; [done|]. simpl.
    destruct (Ascii.eqb (lower_char c) " ") eqn:E.
    + rewrite str_app_cons, str_app_nil_l. simpl. by rewrite IH.
    + simpl. by rewrite lower_char_idemp, IH.
Qed.

Lemma detail_attr_key line k v :
  detail_attr line = Some (k, v) →
  contains " " k = false ∧ lower k = k.
Proof.
  unfold detail_attr. destruct (contains ":" line).
  - destruct (find ":" line) as [i|]; [|done]. intros [= <- _].
    apply attr_key_normal.
  - destruct (startswith "(" line && endswith ")" line); [|done].
    by intros [= <- _].
Qed.

(** *** Records *)

(** What holds of the record of every entry. *)
Lemma parse_entry_record entry med :
  parse_entry entry = Ok (Some med) →
  (∃ s, med !! "name" = Some (VStr s))
  ∧ (∀ k n, med !! k = Some (VInt n) → k = "effectiveness" ∧ (0 ≤ n)%Z)
  ∧ (∀ k, is_Some (med !! k) → contains " " k = false ∧ lower k = k).
Proof.
  intros Hparse.
  destruct (entry_lines entry) as [|first_line rest] eqn:Hlines.
  { by rewrite (parse_entry_no_lines _ Hlines) in Hparse. }
  destruct (parse_entry_lines _ _ _ Hlines) as (m0 & m & Hm0 & Hm & Hparse').
  rewrite Hparse' in Hparse. injection Hparse as ->.
  set (name := strip (span (fun c => negb (name_stop c)) first_line)) in *.
  destruct (first_line_effectiveness_spec first_line (<["name" := VStr name]> ∅))
    as (m0' & Hm0' & Hshape).
  rewrite Hm0 in Hm0'. injection Hm0' as <-.
  destruct (process_detail_lines_spec rest m0) as (m' & Hm' & _ & Hfrom).
  rewrite Hm in Hm'. injection Hm' as <-.
  assert (m0 !! "name" = Some (VStr name)) as Hname0.
  { destruct Hshape as [->|(n & -> & _)].
    - apply lookup_insert_eq.
    - rewrite lookup_insert_ne by done. apply lookup_insert_eq. }
  assert (∀ k v, m0 !! k = Some v →
            (k = "name" ∧ v = VStr name)
            ∨ (k = "effectiveness" ∧ ∃ n, v = VInt n ∧ (0 ≤ n)%Z)) as Hm0keys.
  { intros k v Hk. destruct Hshape as [->|(n & -> & Hn & _)].
    - apply lookup_insert_Some in Hk as [[<- <-]|[_ Hk]]; [by left|].
      by rewrite lookup_empty in Hk.
    - apply lookup_insert_Some in Hk as [[<- <-]|[_ Hk]]; [right; eauto|].
      apply lookup_insert_Some in Hk as [[<- <-]|[_ Hk]]; [by left|].
      by rewrite lookup_empty in Hk. }
  split_and!.
  - destruct (process_detail_lines_keeps rest m0 "name") as (m' & Hm' & Hkeep).
    rewrite Hm in Hm'. injection Hm' as <-.
    destruct (Hkeep ltac:(by rewrite Hname0)) as [v Hv].
    destruct (Hfrom _ _ Hv) as [Hv0|(line & s & _ & _ & ->)]; [|by eauto].
    rewrite Hname0 in Hv0. injection Hv0 as <-. by eauto.
  - intros k n Hk. destruct (Hfrom _ _ Hk) as [Hk0|(line & s & _ & _ & [=])].
    destruct (Hm0keys _ _ Hk0) as [[_ [=]]|[-> (n' & [= <-] & Hn)]]. done.
  - intros k [v Hk]. destruct (Hfrom _ _ Hk) as [Hk0|(line & s & _ & Ha & _)].
    + by destruct (Hm0keys _ _ Hk0) as [[-> _]|[-> _]].
    + by apply detail_attr_key in Ha.
Qed.


Lemma parse_medications_elem content medications med :
  parse_medications content = Ok medications → med ∈ medications →
  ∃ entry, parse_entry entry = Ok (Some med).
Proof.
  destruct (parse_medications_spec content) as (section & _ & ->).
  intros [= <-] (entry & _ & Hrec)%list_elem_of_omap.
  destruct (entry_record_Some _ _ Hrec) as (? & ? & _ & ?). eauto.
Qed.

(** *** Entries *)

Lemma bullet_match_bullet s n :
  bullet_match s = Some n →
  str_forallb (fun c => negb (is_bullet c)) s = false.
Proof.
  unfold bullet_match. destruct s as [|c r]; [done|].
  destruct (Ascii.eqb c "010"); [|done].
  destruct (str_drop _ r) as [|b r'] eqn:E; [done|].
  destruct (is_bullet b) eqn:Hb; [|done]. intros _.
  pose proof (str_take_drop (String.length (span isspace r)) r) as Hr.
  rewrite E in Hr. rewrite <- Hr. cbn [str_forallb].
  rewrite str_forallb_app. cbn [str_forallb]. rewrite Hb. cbn [negb andb].
  by rewrite !andb_false_r.
Qed.

Lemma re_split_bullets_none s :
  str_forallb (fun c => negb (is_bullet c)) s = true →
  re_split_bullets s = [s].
Proof.
  intros H. unfold re_split_bullets, split_with.
  assert (split_go bullet_match 0 s = (s, [])) as ->; [|done].
  induction s as [|c s IH]; [done|]. cbn [split_go].
  destruct (bullet_match (String c s)) as [[|n]|] eqn:E;
    try (apply bullet_match_bullet in E; congruence).
  simpl in H. apply andb_true_iff in H as [_ H]. by rewrite (IH H).
Qed.

End ParserInvariants.


(** X7: every record [parse_medications] returns has the key [name], with
    a string as its value, and no key other than [effectiveness] ever
    holds an integer. *)
Theorem parse_medications_name content medications med :
  parse_medications content = Ok medications → med ∈ medications →
  (∃ s, med !! "name" = Some (VStr s))
  ∧ ∀ k n, med !! k = Some (VInt n) → k = "effectiveness".
Proof.
  intros Hp Hin.
  destruct (parse_medications_elem _ _ _ Hp Hin) as [entry He].
  destruct (parse_entry_record _ _ He) as (Hname & Hint & _).
  split; [done|]. intros k n Hk. by destruct (Hint k n Hk).
Qed.

Lemma parse_medications_name_witness :
  (∃ s, drugy_record !! "name" = Some (VStr s))
  ∧ ∀ k n, drugy_record !! k = Some (VInt n) → k = "effectiveness".
Proof.
  apply (parse_medications_name over_hundred [drugx_record; drugy_record]).
  - by vm_compute.
  - apply list_elem_of_further, list_elem_of_here.
Defined.



(** X9: when the first line of an entry is a text without [%] that does
    not end with a digit, followed by one to three digits and a [%], the
    record's effectiveness is the number these digits spell, whatever
    follows on the line, unless a later line of the entry has the key
    [effectiveness]. *)
Theorem parse_entry_percent entry pre d post rest :
  entry_lines entry = (pre +:+ d +:+ "%" +:+ post) :: rest →
  str_forallb (fun c => negb (Ascii.eqb c "%")) pre = true →
  no_trailing_digit pre = true →
  d ≠ "" → String.length d ≤ 3 → str_forallb isdigit d = true →
  Forall (fun line => fst <$> detail_attr line ≠ Some "effectiveness") rest →
  ∃ med,
    parse_entry entry = Ok (Some med)
    ∧ med !! "effectiveness" = Some (VInt (int_digits d)).
Proof.
  intros Hlines Hpre Hlast Hne Hlen Hd Hrest.
  destruct (parse_entry_lines _ _ _ Hlines) as (m0 & m & Hm0 & Hm & Hparse).
  exists m. split; [done|].
  rewrite (first_line_effectiveness_pct _ _ d) in Hm0
    by (by apply re_search_pct_first).
  injection Hm0 as <-.
  destruct (process_detail_lines_spec rest
    (<["effectiveness" := VInt (int_digits d)]>
       (<["name" := VStr (strip (span (fun c => negb (name_stop c))
                                      (pre +:+ d +:+ "%" +:+ post)))]> ∅)))
    as (m' & Hm' & Hkeep & _).
  rewrite Hm in Hm'. injection Hm' as <-.
  rewrite (Hkeep _ Hrest). apply lookup_insert_eq.
Qed.

Lemma parse_entry_percent_witness :
  ∃ med,
    parse_entry dosed_entry = Ok (Some med)
    ∧ med !! "effectiveness" = Some (VInt (int_digits "85")).
Proof.
  apply (parse_entry_percent dosed_entry "Paracetamol (500mg) - " "85"
           " effective" ["Dosage: 500mg"]).
  - reflexivity.
  - reflexivity.
  - reflexivity.
  - discriminate.
  - simpl. lia.
  - reflexivity.
  - apply Forall_cons. split; [vm_compute; discriminate | apply Forall_nil_2].
Defined.

(** X10: when the first line of an entry has neither a [%] nor the text
    [Effectiveness:], the record has no effectiveness, unless a later
    line of the entry has the key [effectiveness]. *)
Theorem parse_entry_unset entry first_line rest :
  entry_lines entry = first_line :: rest →
  contains "%" first_line = false →
  contains "Effectiveness:" first_line = false →
  Forall (fun line => fst <$> detail_attr line ≠ Some "effectiveness") rest →
  ∃ med,
    parse_entry entry = Ok (Some med) ∧ med !! "effectiveness" = None.
Proof.
  intros Hlines Hpct Heff Hrest.
  destruct (parse_entry_lines _ _ _ Hlines) as (m0 & m & Hm0 & Hm & Hparse).
  exists m. split; [done|].
  rewrite (first_line_effectiveness_unset _ _ Hpct Heff) in Hm0.
  injection Hm0 as <-.
  destruct (process_detail_lines_spec rest
    (<["name" := VStr (strip (span (fun c => negb (name_stop c))
                                   first_line))]> ∅))
    as (m' & Hm' & Hkeep & _).
  rewrite Hm in Hm'. injection Hm' as <-.
  rewrite (Hkeep _ Hrest). by rewrite lookup_insert_ne, lookup_empty.
Qed.

Lemma parse_entry_unset_witness :
  ∃ med,
    parse_entry plain_entry = Ok (Some med) ∧ med !! "effectiveness" = None.
Proof.
  apply (parse_entry_unset plain_entry "Bed rest" ["(two days)"]).
  - reflexivity.
  - reflexivity.
  - reflexivity.
  - apply Forall_cons. split; [vm_compute; discriminate | apply Forall_nil_2].
Defined.

(** X11: when the medication section has neither a [-] nor a [*], there
    is no bullet to split at, and [parse_medications] returns the empty
    list. *)
Theorem parse_medications_no_bullet content section :
  extract_section content MED_HEADER = Ok section →
  str_forallb (fun c => negb (is_bullet c)) section = true →
  parse_medications content = Ok [].
Proof.
  intros Hs Hno. unfold parse_medications. rewrite Hs. simpl.
  by rewrite (re_split_bullets_none _ Hno).
Qed.

Lemma parse_medications_no_bullet_witness :
  parse_medications prose_report = Ok [].
Proof.
  apply (parse_medications_no_bullet prose_report prose_report);
    reflexivity.
Defined.



(** * More on the display *)

Section ChartFacts.

Implicit Types (s d l r : string) (med : gmap string value).







(** *** Padded percentages *)













(** *** The pie chart *)

Lemma create_diagnosis_chart_sizes content :
  ∃ sizes,
    create_diagnosis_chart content = Ok sizes
    ∧ (sizes = [25; 25; 25; 25]%Z ∨ sizes = [40; 20; 20; 20]%Z
       ∨ sizes = [20; 40; 20; 20]%Z ∨ sizes = [20; 20; 40; 20]%Z).
Proof.
  unfold create_diagnosis_chart.
  destruct (contains CLASS_HEADER content); [|by eauto].
  destruct (extract_section_returns content CLASS_HEADER) as [section ->].
  simpl. eexists. split; [done|]. unfold weigh_classification.
  destruct (contains "common" (lower section)),
    (contains "infectious" (lower section)),
    (contains "chronic" (lower section)); auto.
Qed.

End ChartFacts.







(** X16: whatever the text, [create_diagnosis_chart] plots four sizes
    that add up to 100, and pulls out exactly one slice, the first of the
    largest ones: with the default distribution, where no keyword was
    found or the section is missing, that is the first slice,
    [Chronic]. *)
Theorem diagnosis_chart_slices content :
  ∃ sizes explode,
    create_diagnosis_chart content = Ok sizes
    ∧ chart_explode sizes = Ok explode
    ∧ length sizes = 4
    ∧ foldr Z.add 0%Z sizes = 100%Z
    ∧ length explode = 4
    ∧ length (filter (fun b => b = true) explode) = 1
    ∧ (sizes = [25; 25; 25; 25]%Z → explode = [true; false; false; false])
    ∧ (∀ i size, sizes !! i = Some size → explode !! i = Some true →
                 ∀ j other, sizes !! j = Some other → (other ≤ size)%Z).
Proof.
  destruct (create_diagnosis_chart_sizes content) as (sizes & Hs & Hcases).
  exists sizes.
  destruct Hcases as [-> | [-> | [-> | ->] ] ];
    eexists; (split; [exact Hs|]); (split; [reflexivity|]);
    split_and!; try done;
    intros [|[|[|[|i]]]] size Hi He [|[|[|[|j]]]] other Hj;
    simpl in *; simplify_eq; lia.
Qed.

(** * The tabs and the session *)

Section TabFacts.

Implicit Types (s old new body : string).







Lemma lstrip_by_all (f : ascii → bool) s :
  str_forallb f s = true → lstrip_by f s = "".
Proof.
  induction s as [|c s IH]; [done|]. simpl.
  intros [Hc Hs]%andb_true_iff. by rewrite Hc, IH.
Qed.

Lemma strip_blank s : str_forallb isspace s = true → strip s = "".
Proof. intros H. unfold strip, strip_by. by rewrite (lstrip_by_all _ _ H). Qed.

Lemma py_join_blank (l : list string) :
  Forall (fun t => str_forallb isspace t = true) l →
  str_forallb isspace (py_join nl l) = true.
Proof.
  induction 1 as [|t rest Ht Hrest IH]; [done|].
  cbn [py_join]. destruct rest as [|t' rest]; [done|].
  rewrite !str_forallb_app, Ht, IH. done.
Qed.

End TabFacts.



(** X18: for each of the four titles [render_analysis_tabs] shows as
    text, when the title is not in the analysis result the tab shows a
    bare ["## "] line followed by
    ["No information found in this section."]: removing the title from
    the placeholder leaves the marker the placeholder put before it. *)
Theorem tab_text_missing analysis section_title :
  section_title ∈ TAB_HEADERS →
  contains section_title analysis = false →
  tab_text analysis section_title
  = Ok ("## " +:+ nl +:+ "No information found in this section.").
Proof.
  intros Hin Hno. unfold tab_text.
  rewrite (extract_section_absent _ _ Hno). simpl.
  unfold TAB_HEADERS in Hin.
  repeat (apply elem_of_cons in Hin as [->|Hin]; [by vm_compute|]).
  by apply not_elem_of_nil in Hin.
Qed.

Lemma tab_text_missing_witness :
  tab_text two_sections "## 6. Next Steps"
  = Ok ("## " +:+ nl +:+ "No information found in this section.").
Proof.
  apply (tab_text_missing two_sections "## 6. Next Steps").
  - do 3 apply list_elem_of_further. apply list_elem_of_here.
  - reflexivity.
Defined.



(** X20: when no page of the file has anything but white space,
    [extract_text_from_pdf] gives a blank text, and a click on the
    analyze button reports that no readable text was found, leaves the
    session as it was and never calls the service. *)
Theorem blank_pdf_is_not_analyzed model pages st w :
  Forall (fun extracted => str_forallb isspace (page_text extracted) = true)
         pages →
  analyze_click model (Ok (extract_text_from_pdf pages)) st w
  = (st, {| calls := calls w; sleeps := sleeps w;
            errors := errors w
              ++ ["No readable text found in the document."] |}).
Proof.
  intros Hpages. unfold analyze_click, extract_text_from_pdf.
  rewrite strip_blank; [done|].
  apply py_join_blank. by apply Forall_map.
Qed.

Lemma blank_pdf_is_not_analyzed_witness :
  analyze_click flaky (Ok (extract_text_from_pdf [None; Some " "; Some ""]))
    initial_session empty_world
  = (initial_session,
     {| calls := []; sleeps := [];
        errors := [] ++ ["No readable text found in the document."] |}).
Proof.
  apply (blank_pdf_is_not_analyzed flaky [None; Some " "; Some ""]
           initial_session empty_world).
  repeat (apply Forall_cons; split; [reflexivity|]). apply Forall_nil_2.
Defined.

(** X21: when the service answers its first call with an empty text, a
    click on the analyze button marks the analysis as done with an empty
    result: after it the page has neither the analyze button nor the
    results, and so not the button that starts over either. *)
Theorem empty_answer_dead_end model extracted_text st w uploaded :
  is_empty (strip extracted_text) = false →
  model (length (calls w)) (request extracted_text) = answers "" →
  analysis_done (analyze_click model (Ok extracted_text) st w).1 = true
  ∧ analysis_result (analyze_click model (Ok extracted_text) st w).1
    = Some ""
  ∧ shows_results (analyze_click model (Ok extracted_text) st w).1 = false
  ∧ shows_analyze_button uploaded
      (analyze_click model (Ok extracted_text) st w).1 = false.
Proof.
  intros Hblank Hanswer. unfold analyze_click. rewrite Hblank.
  rewrite (analyze_success_after model extracted_text 0 w "");
    [|unfold MAX_RETRIES; lia|intros; lia|by rewrite Nat.add_0_r].
  unfold shows_analyze_button. cbn. by rewrite andb_false_r.
Qed.

Lemma empty_answer_dead_end_witness :
  analysis_done
    (analyze_click mute (Ok "report") initial_session empty_world).1 = true
  ∧ analysis_result
      (analyze_click mute (Ok "report") initial_session empty_world).1
    = Some ""
  ∧ shows_results
      (analyze_click mute (Ok "report") initial_session empty_world).1 = false
  ∧ shows_analyze_button true
      (analyze_click mute (Ok "report") initial_session empty_world).1 = false.
Proof.
  apply (empty_answer_dead_end mute "report" initial_session empty_world true);
    reflexivity.
Defined.
